(** * encrypt-password: the validating wrapper around bcrypt-pbkdf

    A shallow embedding of [src/encrypt-password.ts] and the properties of
    its specification.

    The module has two pieces of behaviour:
    - at load time, [validateSaltVariable] is applied to [env.SALT];
    - [encryptPassword] validates its arguments, marshals the password and
      the salt into byte buffers, allocates the output buffer, hands all of
      it to the external [pbkdf] primitive and returns the output buffer.

    The [pbkdf] primitive of the [bcrypt-pbkdf] package is not part of the
    module: it is a parameter of the development.  Every call made to it is
    recorded, so that "an error is thrown before any derivation work" is a
    statement about the record of calls.  The largest size [Buffer.alloc]
    accepts is a parameter too: it is the runtime's. *)

From Stdlib Require Import ZArith List Lia.
From stdpp Require Import base option list strings gmap pretty.

Local Open Scope Z_scope.

(** ** JavaScript values *)

(** A string is its sequence of UTF-16 code units; [.length] counts them. *)
Definition JsString : Type := list Z.

(** Numbers: the only question the module asks of a number is
    [Number.isInteger], then [< 1] of an integral one.  Integral doubles carry
    their value; the other doubles are kept apart by what they are. *)
Inductive JsNumber : Type :=
| NInt (z : Z)
| NFraction
| NNaN
| NInfinity (negative : bool).

(** [VObject] stands for any value of type object or function (arrays,
    buffers, ...); the module never looks inside one. *)
Inductive JsValue : Type :=
| VUndefined
| VNull
| VBoolean (b : bool)
| VNumber (n : JsNumber)
| VString (s : JsString)
| VObject.

Definition typeof (v : JsValue) : string :=
  match v with
  | VUndefined => "undefined"
  | VNull => "object"
  | VBoolean _ => "boolean"
  | VNumber _ => "number"
  | VString _ => "string"
  | VObject => "object"
  end.

Definition Number_isInteger (v : JsValue) : bool :=
  match v with
  | VNumber (NInt _) => true
  | _ => false
  end.

(** The numeric value of an integral number.  The module reads it only
    behind a successful [Number_isInteger]. *)
Definition int (v : JsValue) : Z :=
  match v with
  | VNumber (NInt z) => z
  | _ => 0
  end.

(** The code units of a string value.  The module reads them only behind a
    successful [typeof v === 'string']. *)
Definition str (v : JsValue) : JsString :=
  match v with
  | VString s => s
  | _ => []
  end.

(** [v.length] for a string value. *)
Definition js_length (v : JsValue) : Z := Z.of_nat (length (str v)).

(** [v === undefined] *)
Definition is_undefined (v : JsValue) : bool :=
  match v with
  | VUndefined => true
  | _ => false
  end.

(** A string literal of the ASCII range, as code units. *)
Fixpoint lit (s : string) : JsString :=
  match s with
  | EmptyString => []
  | String c s' => Z.of_N (Ascii.N_of_ascii c) :: lit s'
  end.

(** ** Objects and the process environment *)

(** An options object, as the map from its own property names to values. *)
Abbreviation JsObject := (gmap string JsValue).

(** [process.env]: every variable that is set holds a string. *)
Abbreviation Env := (gmap string JsString).

(** [o.k]: a property that is absent reads as [undefined]. *)
Definition get (o : JsObject) (k : string) : JsValue :=
  default VUndefined (o !! k).

(** [env.k] *)
Definition env_get (env : Env) (k : string) : JsValue :=
  match env !! k with
  | Some s => VString s
  | None => VUndefined
  end.

(** A default in a parameter list or a destructuring pattern, [x = d]: the
    default replaces [undefined] and nothing else. *)
Definition or_default (v d : JsValue) : JsValue :=
  if is_undefined v then d else v.

(** ** Buffers *)

Definition Buffer : Type := list Z.

(** A buffer of [n] zero bytes. *)
Definition zeros (n : Z) : Buffer := repeat 0 (Z.to_nat n).

Definition is_high_surrogate (u : Z) : bool := (0xD800 <=? u) && (u <=? 0xDBFF).
Definition is_low_surrogate (u : Z) : bool := (0xDC00 <=? u) && (u <=? 0xDFFF).

(** The UTF-8 bytes of one code point. *)
Definition utf8_of_code_point (cp : Z) : Buffer :=
  if cp <? 0x80 then [cp]
  else if cp <? 0x800 then
    [Z.lor 0xC0 (Z.shiftr cp 6); Z.lor 0x80 (Z.land cp 0x3F)]
  else if cp <? 0x10000 then
    [Z.lor 0xE0 (Z.shiftr cp 12);
     Z.lor 0x80 (Z.land (Z.shiftr cp 6) 0x3F);
     Z.lor 0x80 (Z.land cp 0x3F)]
  else
    [Z.lor 0xF0 (Z.shiftr cp 18);
     Z.lor 0x80 (Z.land (Z.shiftr cp 12) 0x3F);
     Z.lor 0x80 (Z.land (Z.shiftr cp 6) 0x3F);
     Z.lor 0x80 (Z.land cp 0x3F)].

(** [Buffer.from(s)] for a string [s]: its UTF-8 encoding.  A surrogate pair
    is one code point of four bytes; a surrogate that is not part of a pair
    is encoded as U+FFFD. *)
Fixpoint Buffer_from (s : JsString) : Buffer :=
  match s with
  | [] => []
  | u :: rest =>
    if is_high_surrogate u then
      match rest with
      | l :: rest' =>
        if is_low_surrogate l then
          utf8_of_code_point
            (0x10000 + Z.shiftl (u - 0xD800) 10 + (l - 0xDC00))
            ++ Buffer_from rest'
        else utf8_of_code_point 0xFFFD ++ Buffer_from rest
      | [] => utf8_of_code_point 0xFFFD
      end
    else if is_low_surrogate u then utf8_of_code_point 0xFFFD ++ Buffer_from rest
    else utf8_of_code_point u ++ Buffer_from rest
  end.

(** A buffer holds bytes; a string holds 16-bit code units. *)
Definition is_byte (b : Z) : Prop := 0 <= b < 256.
Definition is_code_unit (u : Z) : Prop := 0 <= u < 0x10000.

(** The length of a string in bytes, as the derivation sees it. *)
Definition byte_length (s : JsString) : Z := Z.of_nat (length (Buffer_from s)).

(** ** Errors, outcomes and the record of derivation calls *)

(** The module throws [TypeError] with a message of its own.  [RangeError]
    is the error of [Buffer.alloc]; its message is Node's and is not
    modelled. *)
Inductive JsError : Type :=
| TypeError (message : string)
| RangeError.

Inductive Outcome (A : Type) : Type :=
| Return (a : A)
| Throw (e : JsError).
Arguments Return {A} a.
Arguments Throw {A} e.

(** What the Node runtime fixes for the module:
    [buffer.constants.MAX_LENGTH], the largest size [Buffer.alloc] accepts.
    It is [2^53 - 1] on current 64-bit builds; the least value Node documents
    is [2^30 - 1], on 32-bit builds. *)
Record Platform : Type := MkPlatform {
  MAX_LENGTH : Z;
  MAX_LENGTH_floor : 2 ^ 30 - 1 <= MAX_LENGTH
}.

(** A current 64-bit build. *)
Definition node64 : Platform :=
  MkPlatform (2 ^ 53 - 1) (proj1 (Z.leb_le (2 ^ 30 - 1) (2 ^ 53 - 1)) eq_refl).

(** [Buffer.alloc(n)]: a size below 0 or above [MAX_LENGTH] throws a
    [RangeError]; otherwise the buffer is [n] zero bytes.  Apart from this
    check of the argument, memory is taken to be unbounded. *)
Definition Buffer_alloc (platform : Platform) (n : Z) : Outcome Buffer :=
  if (n <? 0) || (MAX_LENGTH platform <? n) then Throw RangeError
  else Return (zeros n).

(** The seven arguments of one call of [pbkdf], in the order of its
    parameter list. *)
Record PbkdfCall : Type := MkPbkdfCall {
  pass : Buffer;
  passlen : Z;
  salt : Buffer;
  saltlen : Z;
  key : Buffer;
  keylen : Z;
  rounds : Z
}.

(** A run of module code: the calls of [pbkdf] it made, in order, and how it
    ended. *)
Record Run (A : Type) : Type := MkRun {
  calls : list PbkdfCall;
  outcome : Outcome A
}.
Arguments MkRun {A} calls outcome.
Arguments calls {A} r.
Arguments outcome {A} r.

Definition throw {A : Type} (e : JsError) : Run A := MkRun [] (Throw e).

(** Code of the runtime that may throw and calls no [pbkdf]. *)
Definition no_call {A : Type} (o : Outcome A) : Run A := MkRun [] o.

#[global] Instance Run_ret : MRet Run := fun A a => MkRun [] (Return a).

#[global] Instance Run_bind : MBind Run := fun A B f m =>
  match outcome m with
  | Return a => MkRun (calls m ++ calls (f a)) (outcome (f a))
  | Throw e => MkRun (calls m) (Throw e)
  end.

(** ** The module *)

Definition minSaltLengh : Z := 8.

Definition msg_env_salt : string :=
  "The SALT environment variable must be at least " ++ pretty minSaltLengh
    ++ " characters long.".
Definition msg_password : string := "Argument `password` must be a string.".
Definition msg_numberOfRounds : string :=
  "If specified, option `numberOfRounds` must be a positive integer.".
Definition msg_outputLength : string :=
  "If specified, option `outputLength` must be a positive integer.".
Definition msg_salt_string : string := "Argument `salt` must be a string.".
Definition msg_salt_length : string :=
  "Argument `salt` must be at least " ++ pretty minSaltLengh
    ++ " characters long.".

(** The function run on [env.SALT] when the module is loaded. *)
Definition validateSaltVariable (SALT : JsValue) : Outcome unit :=
  if is_undefined SALT then Return tt
  else if negb (String.eqb (typeof SALT) "string")
          || (js_length SALT <? minSaltLengh)
  then Throw (TypeError msg_env_salt)
  else Return tt.

(** Loading the module in a process whose environment is [env]. *)
Definition load_module (env : Env) : Outcome unit :=
  validateSaltVariable (env_get env "SALT").

Section Wrapper.

(** The external primitive: from the arguments of a call, the bytes it
    leaves in the [key] buffer.  It is taken to be a function of its
    arguments that returns normally.  The value the call itself evaluates to
    is dropped by the module and is not modelled. *)
Variable platform : Platform.
Variable pbkdf : PbkdfCall -> Buffer.

Definition call_pbkdf (c : PbkdfCall) : Run Buffer :=
  MkRun [c] (Return (pbkdf c)).

(** The body of [encryptPassword], once the parameters are bound. *)
Definition encryptPassword_body
    (password numberOfRounds outputLength salt : JsValue) : Run Buffer :=
  if negb (String.eqb (typeof password) "string") then
    throw (TypeError msg_password)
  else if negb (Number_isInteger numberOfRounds) || (int numberOfRounds <? 1) then
    throw (TypeError msg_numberOfRounds)
  else if negb (Number_isInteger outputLength) || (int outputLength <? 1) then
    throw (TypeError msg_outputLength)
  else if negb (String.eqb (typeof salt) "string") then
    throw (TypeError msg_salt_string)
  else if js_length salt <? minSaltLengh then
    throw (TypeError msg_salt_length)
  else
    let buffer := Buffer_from (str password) in
    let bufferLength := Z.of_nat (length buffer) in
    let saltBuffer := Buffer_from (str salt) in
    let saltBufferLength := Z.of_nat (length saltBuffer) in
    outputBuffer ← no_call (Buffer_alloc platform (int outputLength));
    outputBuffer ← call_pbkdf
      (MkPbkdfCall buffer bufferLength saltBuffer saltBufferLength
                   outputBuffer (int outputLength) (int numberOfRounds));
    mret outputBuffer.

(** [encryptPassword(password, options)] in a process whose environment is
    [env] at the time of the call.  [options] is [None] when the second
    argument is left out.  The second argument is taken at its declared
    type, an object: [null], on which the destructuring itself throws, is
    outside the model. *)
Definition encryptPassword
    (env : Env) (password : JsValue) (options : option JsObject) : Run Buffer :=
  let o := default ∅ options in
  let numberOfRounds := or_default (get o "numberOfRounds") (VNumber (NInt 1)) in
  let outputLength := or_default (get o "outputLength") (VNumber (NInt 32)) in
  let salt := or_default (get o "salt") (env_get env "SALT") in
  encryptPassword_body password numberOfRounds outputLength salt.

End Wrapper.

(** A stand-in primitive for running the module on concrete inputs: every
    byte of the key buffer is overwritten with a checksum of the password,
    the salt, the round count and the position.  It has none of the
    cryptographic content of bcrypt-pbkdf. *)
Definition checksum_pbkdf (c : PbkdfCall) : Buffer :=
  let seed := fold_right Z.add (rounds c) (pass c ++ salt c) in
  imap (fun i _ => (seed + Z.of_nat i) mod 256) (key c).

(** ** The process around the module *)

(** What the program does with the module once it is loaded: it may write
    to [process.env], and it may call [encryptPassword]. *)
Inductive Command : Type :=
| SetEnv (name : string) (value : JsString)
| DeleteEnv (name : string)
| Call (password : JsValue) (options : option JsObject).

(** The runs of the calls of [encryptPassword], in order.  Each call reads
    the environment as the commands before it have left it.  What a caller
    does with a thrown error is its own business; the model records the run
    and goes on. *)
Fixpoint run_commands (platform : Platform) (pbkdf : PbkdfCall -> Buffer)
    (env : Env)
    (cmds : list Command) : list (Run Buffer) :=
  match cmds with
  | [] => []
  | SetEnv name value :: rest => run_commands platform pbkdf (<[name := value]> env) rest
  | DeleteEnv name :: rest => run_commands platform pbkdf (delete name env) rest
  | Call password options :: rest =>
    encryptPassword platform pbkdf env password options :: run_commands platform pbkdf env rest
  end.

(** A process: the module is loaded in the initial environment, and only if
    that does not throw do the commands run. *)
Definition run_process (platform : Platform) (pbkdf : PbkdfCall -> Buffer)
    (env : Env)
    (cmds : list Command) : Outcome (list (Run Buffer)) :=
  match load_module env with
  | Return _ => Return (run_commands platform pbkdf env cmds)
  | Throw e => Throw e
  end.

(** ** The error taxonomy of the specification

    The module throws [TypeError] at five places in [encryptPassword]; the
    message tells them apart.  The specification names four kinds of
    validation error, read here as the throw sites they stand for. *)

Definition InvalidPassword (e : JsError) : Prop :=
  e = TypeError msg_password.

Definition InvalidRoundCount (e : JsError) : Prop :=
  e = TypeError msg_numberOfRounds.

Definition InvalidOutputLength (e : JsError) : Prop :=
  e = TypeError msg_outputLength.

Definition InvalidSalt (e : JsError) : Prop :=
  e = TypeError msg_salt_string \/ e = TypeError msg_salt_length.

(** A primitive respects its key buffer when it leaves it at the length it
    had: a [Buffer] cannot be resized by the code it is handed to. *)
Definition keeps_key_length (pbkdf : PbkdfCall -> Buffer) : Prop :=
  forall c, length (pbkdf c) = length (key c).

(** The call of [pbkdf] that [encryptPassword] makes for a password [pw], a
    salt [s], [r] rounds and an output length [L]. *)
Definition derivation_call (pw s : JsString) (r L : Z) : PbkdfCall :=
  MkPbkdfCall (Buffer_from pw) (byte_length pw) (Buffer_from s) (byte_length s)
              (zeros L) L r.

(** What the specification calls a positive integer, and a salt that is long
    enough for the module. *)
Definition positive_integer (v : JsValue) : Prop :=
  exists z, v = VNumber (NInt z) /\ 1 <= z.

Definition long_enough_string (v : JsValue) : Prop :=
  exists s, v = VString s /\ minSaltLengh <= Z.of_nat (length s).

(** The values the three names of the destructuring pattern are bound to
    in a call: the option when it is there and not [undefined], its default
    otherwise. *)
Definition bound_numberOfRounds (options : option JsObject) : JsValue :=
  or_default (get (default ∅ options) "numberOfRounds") (VNumber (NInt 1)).

Definition bound_outputLength (options : option JsObject) : JsValue :=
  or_default (get (default ∅ options) "outputLength") (VNumber (NInt 32)).

Definition bound_salt (env : Env) (options : option JsObject) : JsValue :=
  or_default (get (default ∅ options) "salt") (env_get env "SALT").

(** The runs of the body as a relation, one rule per way out of the
    function: the five [throw] statements in their order, the throw of
    [Buffer.alloc], and the [return]. *)
Inductive BodyRun (platform : Platform) (pbkdf : PbkdfCall -> Buffer)
    (password numberOfRounds outputLength salt : JsValue) : Run Buffer -> Prop :=
| run_password_not_string :
    String.eqb (typeof password) "string" = false ->
    BodyRun platform pbkdf password numberOfRounds outputLength salt
            (throw (TypeError msg_password))
| run_numberOfRounds_invalid pw :
    password = VString pw ->
    ~ positive_integer numberOfRounds ->
    BodyRun platform pbkdf password numberOfRounds outputLength salt
            (throw (TypeError msg_numberOfRounds))
| run_outputLength_invalid pw :
    password = VString pw ->
    positive_integer numberOfRounds ->
    ~ positive_integer outputLength ->
    BodyRun platform pbkdf password numberOfRounds outputLength salt
            (throw (TypeError msg_outputLength))
| run_salt_not_string pw :
    password = VString pw ->
    positive_integer numberOfRounds ->
    positive_integer outputLength ->
    String.eqb (typeof salt) "string" = false ->
    BodyRun platform pbkdf password numberOfRounds outputLength salt
            (throw (TypeError msg_salt_string))
| run_salt_short pw s :
    password = VString pw ->
    positive_integer numberOfRounds ->
    positive_integer outputLength ->
    salt = VString s ->
    Z.of_nat (length s) < minSaltLengh ->
    BodyRun platform pbkdf password numberOfRounds outputLength salt
            (throw (TypeError msg_salt_length))
| run_alloc_out_of_range pw s r L :
    password = VString pw ->
    numberOfRounds = VNumber (NInt r) -> 1 <= r ->
    outputLength = VNumber (NInt L) -> 1 <= L ->
    salt = VString s -> minSaltLengh <= Z.of_nat (length s) ->
    MAX_LENGTH platform < L ->
    BodyRun platform pbkdf password numberOfRounds outputLength salt
            (throw RangeError)
| run_derive pw s r L :
    password = VString pw ->
    numberOfRounds = VNumber (NInt r) -> 1 <= r ->
    outputLength = VNumber (NInt L) -> 1 <= L ->
    salt = VString s -> minSaltLengh <= Z.of_nat (length s) ->
    L <= MAX_LENGTH platform ->
    BodyRun platform pbkdf password numberOfRounds outputLength salt
            (MkRun [derivation_call pw s r L]
                   (Return (pbkdf (derivation_call pw s r L)))).

(** ** Basic facts *)

Example msg_env_salt_text :
  msg_env_salt
  = "The SALT environment variable must be at least 8 characters long.".
Proof. reflexivity. Qed.

Example msg_salt_length_text :
  msg_salt_length = "Argument `salt` must be at least 8 characters long.".
Proof. reflexivity. Qed.

Lemma typeof_string (v : JsValue) :
  String.eqb (typeof v) "string" = true <-> exists s, v = VString s.
Proof.
  split.
  - destruct v; simpl; try discriminate. eauto.
  - intros [s ->]. reflexivity.
Qed.

Lemma typeof_VString (s : JsString) :
  String.eqb (typeof (VString s)) "string" = true.
Proof. reflexivity. Qed.

Lemma or_default_undefined (d : JsValue) : or_default VUndefined d = d.
Proof. reflexivity. Qed.

Lemma or_default_defined (v d : JsValue) : v <> VUndefined -> or_default v d = v.
Proof. intros H. destruct v; [congruence | reflexivity ..]. Qed.

Lemma get_insert_eq (o : JsObject) (k : string) (v : JsValue) :
  get (<[k := v]> o) k = v.
Proof. unfold get. by rewrite lookup_insert_eq. Qed.

Lemma get_insert_ne (o : JsObject) (k k' : string) (v : JsValue) :
  k <> k' -> get (<[k := v]> o) k' = get o k'.
Proof. intros H. unfold get. by rewrite lookup_insert_ne. Qed.

Lemma get_delete_eq (o : JsObject) (k : string) : get (delete k o) k = VUndefined.
Proof. unfold get. by rewrite lookup_delete_eq. Qed.

Lemma get_delete_ne (o : JsObject) (k k' : string) :
  k <> k' -> get (delete k o) k' = get o k'.
Proof. intros H. unfold get. by rewrite lookup_delete_ne. Qed.

Lemma get_absent (o : JsObject) (k : string) : o !! k = None -> get o k = VUndefined.
Proof. unfold get. by intros ->. Qed.

Lemma zeros_length (n : Z) : 0 <= n -> Z.of_nat (length (zeros n)) = n.
Proof. intros H. unfold zeros. rewrite repeat_length. lia. Qed.

Lemma Buffer_alloc_in_range (platform : Platform) (n : Z) :
  0 <= n <= MAX_LENGTH platform -> Buffer_alloc platform n = Return (zeros n).
Proof.
  intros [H0 H1]. unfold Buffer_alloc.
  apply Z.ltb_ge in H0, H1. by rewrite H0, H1.
Qed.

Lemma Buffer_alloc_above (platform : Platform) (n : Z) :
  MAX_LENGTH platform < n -> Buffer_alloc platform n = Throw RangeError.
Proof.
  intros H%Z.ltb_lt. unfold Buffer_alloc. rewrite H. by rewrite orb_true_r.
Qed.

(** The default output length is within the range of [Buffer.alloc] on
    every platform. *)
Lemma default_length_in_range (platform : Platform) : 32 <= MAX_LENGTH platform.
Proof.
  pose proof (MAX_LENGTH_floor platform) as H.
  assert (32 <= 2 ^ 30 - 1) by (apply Z.leb_le; reflexivity). lia.
Qed.

(** *** UTF-8: a string has at least as many bytes as code units *)

Lemma utf8_of_code_point_length (cp : Z) :
  (1 <= length (utf8_of_code_point cp) <= 4)%nat.
Proof.
  unfold utf8_of_code_point.
  repeat case_match; simpl; lia.
Qed.

Lemma utf8_of_code_point_astral (cp : Z) :
  0x10000 <= cp -> length (utf8_of_code_point cp) = 4%nat.
Proof.
  intros H. unfold utf8_of_code_point.
  repeat case_match; try reflexivity; lia.
Qed.

Lemma surrogate_pair_code_point (u l : Z) :
  is_high_surrogate u = true -> is_low_surrogate l = true ->
  0x10000 <= 0x10000 + Z.shiftl (u - 0xD800) 10 + (l - 0xDC00) < 0x110000.
Proof.
  unfold is_high_surrogate, is_low_surrogate.
  intros [Hu1 Hu2]%andb_prop [Hl1 Hl2]%andb_prop.
  rewrite Z.shiftl_mul_pow2 by lia. lia.
Qed.

(** The statement is proved for a string and for its tail at once, as the
    encoder consumes one or two code units per step. *)
Lemma Buffer_from_length_aux (n : nat) :
  forall s : JsString, (length s <= n)%nat ->
    (length s <= length (Buffer_from s))%nat.
Proof.
  induction n as [|n IH]; intros s Hn.
  - destruct s; simpl in *; lia.
  - destruct s as [|u rest]; [simpl; lia|].
    simpl in Hn.
    assert (Hrest : (length rest <= length (Buffer_from rest))%nat)
      by (apply IH; lia).
    cbn [Buffer_from].
    destruct (is_high_surrogate u) eqn:Hu.
    + destruct rest as [|l rest'].
      * pose proof (utf8_of_code_point_length 0xFFFD). simpl length at 1. lia.
      * destruct (is_low_surrogate l) eqn:Hl.
        -- rewrite length_app.
           rewrite (utf8_of_code_point_astral _
                      (proj1 (surrogate_pair_code_point u l Hu Hl))).
           assert ((length rest' <= length (Buffer_from rest'))%nat)
             by (apply IH; simpl in Hn; lia).
           simpl length at 1. lia.
        -- rewrite length_app.
           pose proof (utf8_of_code_point_length 0xFFFD).
           simpl length at 1. simpl length at 1 in Hrest. lia.
    + destruct (is_low_surrogate u);
        rewrite length_app;
        [pose proof (utf8_of_code_point_length 0xFFFD)
        |pose proof (utf8_of_code_point_length u)];
        simpl length at 1; lia.
Qed.

Lemma length_le_byte_length (s : JsString) :
  Z.of_nat (length s) <= byte_length s.
Proof.
  unfold byte_length.
  pose proof (Buffer_from_length_aux (length s) s (le_n _)). lia.
Qed.

(** *** UTF-8: the encoding of code units is made of bytes *)

Lemma lor_is_byte (a b : Z) : is_byte a -> is_byte b -> is_byte (Z.lor a b).
Proof.
  unfold is_byte. intros Ha Hb.
  assert (Hnn : 0 <= Z.lor a b) by (apply Z.lor_nonneg; lia).
  split; [exact Hnn |].
  destruct (Z.eq_dec (Z.lor a b) 0) as [-> | Hne]; [lia |].
  change 256 with (2 ^ 8). apply Z.log2_lt_pow2; [lia |].
  rewrite Z.log2_lor by lia.
  assert (Hlog : forall x, 0 <= x < 256 -> Z.log2 x < 8).
  { intros x Hx. destruct (Z.eq_dec x 0) as [-> | ?]; [reflexivity |].
    apply Z.log2_lt_pow2; lia. }
  pose proof (Hlog a Ha). pose proof (Hlog b Hb). lia.
Qed.

Lemma land_0x3F (x : Z) : 0 <= Z.land x 0x3F < 64.
Proof.
  change 0x3F with (Z.ones 6). rewrite Z.land_ones by lia.
  apply Z.mod_pos_bound. lia.
Qed.

Lemma shiftr_below (x k m : Z) :
  0 <= k -> 0 <= x < 2 ^ k * m -> 0 <= Z.shiftr x k < m.
Proof.
  intros Hk Hx. rewrite Z.shiftr_div_pow2 by lia.
  assert (0 < 2 ^ k) by (apply Z.pow_pos_nonneg; lia).
  split.
  - apply Z.div_pos; lia.
  - apply Z.div_lt_upper_bound; lia.
Qed.


Lemma continuation_byte (x : Z) : is_byte (Z.lor 0x80 (Z.land x 0x3F)).
Proof.
  apply lor_is_byte; unfold is_byte; [lia |].
  pose proof (land_0x3F x). lia.
Qed.

Lemma lead_byte (tag x k m : Z) :
  is_byte tag -> 0 <= k -> 0 < m <= 256 -> 0 <= x < 2 ^ k * m ->
  is_byte (Z.lor tag (Z.shiftr x k)).
Proof.
  intros Ht Hk Hm Hx. apply lor_is_byte; [exact Ht |].
  pose proof (shiftr_below x k m Hk Hx). unfold is_byte. lia.
Qed.

Lemma utf8_of_code_point_bytes (cp : Z) :
  0 <= cp < 0x110000 -> Forall is_byte (utf8_of_code_point cp).
Proof.
  intros Hcp. unfold utf8_of_code_point.
  destruct (Z.ltb_spec cp 0x80); [| destruct (Z.ltb_spec cp 0x800);
                                    [| destruct (Z.ltb_spec cp 0x10000)]].
  - constructor; [unfold is_byte; lia | constructor].
  - constructor; [| constructor; [| constructor]].
    + apply (lead_byte _ _ 6 32); unfold is_byte; lia.
    + apply continuation_byte.
  - constructor; [| constructor; [| constructor; [| constructor]]].
    + apply (lead_byte _ _ 12 16); unfold is_byte; lia.
    + apply continuation_byte.
    + apply continuation_byte.
  - constructor; [| constructor; [| constructor; [| constructor; [| constructor]]]].
    + apply (lead_byte _ _ 18 5); unfold is_byte; lia.
    + apply continuation_byte.
    + apply continuation_byte.
    + apply continuation_byte.
Qed.

Lemma Buffer_from_bytes_aux (n : nat) :
  forall s : JsString, (length s <= n)%nat ->
    Forall is_code_unit s -> Forall is_byte (Buffer_from s).
Proof.
  induction n as [|n IH]; intros s Hn Hs.
  - destruct s; [constructor | simpl in Hn; lia].
  - destruct s as [|u rest]; [constructor |].
    simpl in Hn. inversion Hs as [|? ? Hu Hrest]; subst.
    assert (Forall is_byte (Buffer_from rest)) by (apply IH; [lia | done]).
    assert (Forall is_byte (utf8_of_code_point 0xFFFD))
      by (apply utf8_of_code_point_bytes; lia).
    cbn [Buffer_from].
    destruct (is_high_surrogate u) eqn:Hhigh.
    + destruct rest as [|l rest']; [done |].
      destruct (is_low_surrogate l) eqn:Hlow.
      * apply Forall_app. split.
        -- apply utf8_of_code_point_bytes.
           pose proof (surrogate_pair_code_point u l Hhigh Hlow). lia.
        -- inversion Hrest; subst. apply IH; [simpl in Hn; lia | done].
      * by apply Forall_app.
    + destruct (is_low_surrogate u); apply Forall_app; split; try done.
      apply utf8_of_code_point_bytes. unfold is_code_unit in Hu. lia.
Qed.

Lemma Buffer_from_bytes (s : JsString) :
  Forall is_code_unit s -> Forall is_byte (Buffer_from s).
Proof. apply (Buffer_from_bytes_aux (length s)). lia. Qed.

(** *** The five messages are pairwise different *)

Lemma messages_distinct :
  NoDup [msg_password; msg_numberOfRounds; msg_outputLength;
         msg_salt_string; msg_salt_length].
Proof. apply (bool_decide_unpack _). vm_compute. reflexivity. Qed.

(** *** What the primitive used in the examples does *)

Lemma checksum_pbkdf_keeps_key_length : keeps_key_length checksum_pbkdf.
Proof. intros c. unfold checksum_pbkdf. apply length_imap. Qed.

(** ** The body of [encryptPassword], guard by guard *)

Lemma positive_integer_guard (v : JsValue) :
  negb (Number_isInteger v) || (int v <? 1) = false <-> positive_integer v.
Proof.
  unfold positive_integer. split.
  - destruct v as [| | |[z| | |]| |]; simpl; try discriminate.
    intros H%Z.ltb_ge. eauto.
  - intros (z & -> & Hz). simpl. apply Z.ltb_ge. lia.
Qed.

Lemma not_positive_integer_guard (v : JsValue) :
  negb (Number_isInteger v) || (int v <? 1) = true <-> ~ positive_integer v.
Proof.
  rewrite <- positive_integer_guard.
  destruct (negb (Number_isInteger v) || (int v <? 1)); split; congruence.
Qed.

Lemma long_enough_string_guard (v : JsValue) :
  String.eqb (typeof v) "string" = true /\ (js_length v <? minSaltLengh) = false
  <-> long_enough_string v.
Proof.
  unfold long_enough_string. split.
  - intros [[s ->]%typeof_string H%Z.ltb_ge]. eauto.
  - intros (s & -> & Hs). split; [reflexivity | apply Z.ltb_ge; exact Hs].
Qed.

Section Guards.

Variable platform : Platform.
Variable pbkdf : PbkdfCall -> Buffer.

Lemma body_password_not_string (password numberOfRounds outputLength salt : JsValue) :
  String.eqb (typeof password) "string" = false ->
  encryptPassword_body platform pbkdf password numberOfRounds outputLength salt
  = throw (TypeError msg_password).
Proof. intros H. unfold encryptPassword_body. by rewrite H. Qed.

Lemma body_numberOfRounds_invalid (pw : JsString) (numberOfRounds outputLength salt : JsValue) :
  ~ positive_integer numberOfRounds ->
  encryptPassword_body platform pbkdf (VString pw) numberOfRounds outputLength salt
  = throw (TypeError msg_numberOfRounds).
Proof.
  intros H%not_positive_integer_guard. unfold encryptPassword_body.
  by rewrite typeof_VString, H.
Qed.

Lemma body_outputLength_invalid (pw : JsString) (numberOfRounds outputLength salt : JsValue) :
  positive_integer numberOfRounds ->
  ~ positive_integer outputLength ->
  encryptPassword_body platform pbkdf (VString pw) numberOfRounds outputLength salt
  = throw (TypeError msg_outputLength).
Proof.
  intros Hr%positive_integer_guard HL%not_positive_integer_guard.
  unfold encryptPassword_body.
  by rewrite typeof_VString, Hr, HL.
Qed.

Lemma body_salt_not_string (pw : JsString) (numberOfRounds outputLength salt : JsValue) :
  positive_integer numberOfRounds ->
  positive_integer outputLength ->
  String.eqb (typeof salt) "string" = false ->
  encryptPassword_body platform pbkdf (VString pw) numberOfRounds outputLength salt
  = throw (TypeError msg_salt_string).
Proof.
  intros Hr%positive_integer_guard HL%positive_integer_guard Hs.
  unfold encryptPassword_body.
  by rewrite typeof_VString, Hr, HL, Hs.
Qed.

Lemma body_salt_short (pw s : JsString) (numberOfRounds outputLength : JsValue) :
  positive_integer numberOfRounds ->
  positive_integer outputLength ->
  Z.of_nat (length s) < minSaltLengh ->
  encryptPassword_body platform pbkdf (VString pw) numberOfRounds outputLength (VString s)
  = throw (TypeError msg_salt_length).
Proof.
  intros Hr%positive_integer_guard HL%positive_integer_guard Hs%Z.ltb_lt.
  unfold encryptPassword_body.
  rewrite !typeof_VString, Hr, HL. unfold js_length. cbn [str]. by rewrite Hs.
Qed.

Lemma body_alloc_out_of_range (pw s : JsString) (r L : Z) :
  1 <= r -> 1 <= L -> minSaltLengh <= Z.of_nat (length s) ->
  MAX_LENGTH platform < L ->
  encryptPassword_body platform pbkdf (VString pw) (VNumber (NInt r)) (VNumber (NInt L)) (VString s)
  = throw RangeError.
Proof.
  intros Hr%Z.ltb_ge HL%Z.ltb_ge Hs%Z.ltb_ge Hmax.
  unfold encryptPassword_body.
  rewrite !typeof_VString. unfold js_length.
  cbn [str int Number_isInteger negb orb].
  rewrite Hr, HL, Hs, (Buffer_alloc_above platform L Hmax). reflexivity.
Qed.

Lemma body_valid (pw s : JsString) (r L : Z) :
  1 <= r -> 1 <= L -> minSaltLengh <= Z.of_nat (length s) ->
  L <= MAX_LENGTH platform ->
  encryptPassword_body platform pbkdf (VString pw) (VNumber (NInt r)) (VNumber (NInt L)) (VString s)
  = MkRun [derivation_call pw s r L] (Return (pbkdf (derivation_call pw s r L))).
Proof.
  intros Hr HL Hs%Z.ltb_ge Hmax.
  unfold encryptPassword_body.
  rewrite !typeof_VString. unfold js_length.
  cbn [str int Number_isInteger negb orb].
  rewrite (proj2 (Z.ltb_ge r 1) Hr), (proj2 (Z.ltb_ge L 1) HL), Hs.
  rewrite Buffer_alloc_in_range by lia. reflexivity.
Qed.

(** The function follows the relation. *)
Lemma body_run (password numberOfRounds outputLength salt : JsValue) :
  BodyRun platform pbkdf password numberOfRounds outputLength salt
          (encryptPassword_body platform pbkdf password numberOfRounds outputLength salt).
Proof.
  destruct (String.eqb (typeof password) "string") eqn:Hp.
  2:{ rewrite body_password_not_string by done. by constructor. }
  apply typeof_string in Hp as [pw ->].
  destruct (negb (Number_isInteger numberOfRounds) || (int numberOfRounds <? 1)) eqn:Hr.
  { apply not_positive_integer_guard in Hr.
    rewrite body_numberOfRounds_invalid by done. by econstructor. }
  destruct (negb (Number_isInteger outputLength) || (int outputLength <? 1)) eqn:HL.
  { apply positive_integer_guard in Hr. apply not_positive_integer_guard in HL.
    rewrite body_outputLength_invalid by done. by econstructor. }
  apply positive_integer_guard in Hr, HL.
  destruct (String.eqb (typeof salt) "string") eqn:Hs.
  2:{ rewrite body_salt_not_string by done. by econstructor. }
  apply typeof_string in Hs as [s ->].
  destruct (Z.ltb_spec (Z.of_nat (length s)) minSaltLengh) as [Hlen | Hlen].
  { rewrite body_salt_short by done. by econstructor. }
  destruct Hr as (r & -> & Hr), HL as (L & -> & HL).
  destruct (Z.lt_ge_cases (MAX_LENGTH platform) L) as [Hmax | Hmax].
  { rewrite body_alloc_out_of_range by done.
    by eapply run_alloc_out_of_range. }
  rewrite body_valid by done. by eapply run_derive.
Qed.

Lemma body_throw_no_calls (password numberOfRounds outputLength salt : JsValue) (e : JsError) :
  outcome (encryptPassword_body platform pbkdf password numberOfRounds outputLength salt) = Throw e ->
  calls (encryptPassword_body platform pbkdf password numberOfRounds outputLength salt) = [].
Proof.
  destruct (body_run password numberOfRounds outputLength salt);
    [reflexivity .. | discriminate].
Qed.

Lemma encryptPassword_unfold (env : Env) (password : JsValue) (options : option JsObject) :
  encryptPassword platform pbkdf env password options
  = encryptPassword_body platform pbkdf password (bound_numberOfRounds options)
      (bound_outputLength options) (bound_salt env options).
Proof. reflexivity. Qed.

Lemma encryptPassword_valid (env : Env) (pw : JsString) (options : option JsObject)
    (r L : Z) (s : JsString) :
  bound_numberOfRounds options = VNumber (NInt r) -> 1 <= r ->
  bound_outputLength options = VNumber (NInt L) -> 1 <= L ->
  bound_salt env options = VString s -> minSaltLengh <= Z.of_nat (length s) ->
  L <= MAX_LENGTH platform ->
  encryptPassword platform pbkdf env (VString pw) options
  = MkRun [derivation_call pw s r L] (Return (pbkdf (derivation_call pw s r L))).
Proof.
  intros Hr ? HL ? Hs ? ?. rewrite encryptPassword_unfold, Hr, HL, Hs.
  by apply body_valid.
Qed.

Lemma encryptPassword_alloc_out_of_range (env : Env) (pw : JsString)
    (options : option JsObject) (r L : Z) (s : JsString) :
  bound_numberOfRounds options = VNumber (NInt r) -> 1 <= r ->
  bound_outputLength options = VNumber (NInt L) -> 1 <= L ->
  bound_salt env options = VString s -> minSaltLengh <= Z.of_nat (length s) ->
  MAX_LENGTH platform < L ->
  encryptPassword platform pbkdf env (VString pw) options = throw RangeError.
Proof.
  intros Hr ? HL ? Hs ? ?. rewrite encryptPassword_unfold, Hr, HL, Hs.
  by apply body_alloc_out_of_range.
Qed.

Lemma derived_key_length (pw s : JsString) (r L : Z) :
  keeps_key_length pbkdf -> 0 <= L ->
  Z.of_nat (length (pbkdf (derivation_call pw s r L))) = L.
Proof. intros Hk HL. rewrite Hk. simpl. by apply zeros_length. Qed.

End Guards.

(** Messages of different throw sites are different strings. *)
Ltac msg_neq :=
  let H := fresh in
  try intros [= H]; try (intros [[= H] | [= H]]); vm_compute in H; discriminate.

(** An option that is given (not [undefined]) is what its name is bound to. *)
Lemma bound_numberOfRounds_given (options : option JsObject) (v : JsValue) :
  get (default ∅ options) "numberOfRounds" = v -> v <> VUndefined ->
  bound_numberOfRounds options = v.
Proof. intros <- ?. by apply or_default_defined. Qed.

Lemma bound_outputLength_given (options : option JsObject) (v : JsValue) :
  get (default ∅ options) "outputLength" = v -> v <> VUndefined ->
  bound_outputLength options = v.
Proof. intros <- ?. by apply or_default_defined. Qed.

Lemma bound_salt_given (env : Env) (options : option JsObject) (v : JsValue) :
  get (default ∅ options) "salt" = v -> v <> VUndefined ->
  bound_salt env options = v.
Proof. intros <- ?. by apply or_default_defined. Qed.

Lemma bound_salt_default (env : Env) (options : option JsObject) :
  get (default ∅ options) "salt" = VUndefined ->
  bound_salt env options = env_get env "SALT".
Proof. unfold bound_salt. by intros ->. Qed.

(** ** The claims of the specification *)

(** C1 (length exactness), as amended.  For every valid call -- a string
    password, and after the defaults an integer number of rounds [r >= 1],
    an integer output length [L >= 1] and a string salt of at least
    [minSaltLengh] code units -- whose output length is within the range of
    [Buffer.alloc], [L <= MAX_LENGTH], [encryptPassword] returns a buffer of
    exactly [L] bytes, [L] being 32 when the option is left out.  The buffer
    is whole: it is the [L]-byte zeroed buffer the primitive was handed, with
    [keylen = L], as the primitive left it; nothing is cut from it.  A valid
    call with [L > MAX_LENGTH] throws the [RangeError] of [Buffer.alloc],
    before any call of the primitive.  No invalid value is replaced by a
    default: an option that is given (not [undefined]) and is invalid makes
    the call throw, with no call of the primitive.  And there is no partial
    result: whenever a call returns, the buffer has the whole length asked
    for. *)
Theorem encryptPassword_exact_length
    (platform : Platform) (pbkdf : PbkdfCall -> Buffer) (env : Env) :
  keeps_key_length pbkdf ->
  (forall (pw : JsString) (options : option JsObject) (r L : Z) (s : JsString),
      bound_numberOfRounds options = VNumber (NInt r) -> 1 <= r ->
      bound_outputLength options = VNumber (NInt L) -> 1 <= L ->
      bound_salt env options = VString s -> minSaltLengh <= Z.of_nat (length s) ->
      (L <= MAX_LENGTH platform ->
       exists buf : Buffer,
         encryptPassword platform pbkdf env (VString pw) options
         = MkRun [derivation_call pw s r L] (Return buf)
         /\ buf = pbkdf (derivation_call pw s r L)
         /\ Z.of_nat (length buf) = L)
      /\ (MAX_LENGTH platform < L ->
          encryptPassword platform pbkdf env (VString pw) options
          = MkRun [] (Throw RangeError))
      /\ (get (default ∅ options) "outputLength" = VUndefined ->
          L = 32 /\ L <= MAX_LENGTH platform))
  /\ (forall (password : JsValue) (options : option JsObject) (v : JsValue),
        v <> VUndefined ->
        (get (default ∅ options) "numberOfRounds" = v /\ ~ positive_integer v)
        \/ (get (default ∅ options) "outputLength" = v /\ ~ positive_integer v)
        \/ (get (default ∅ options) "salt" = v /\ ~ long_enough_string v) ->
        exists e : JsError,
          encryptPassword platform pbkdf env password options = MkRun [] (Throw e))
  /\ (forall (password : JsValue) (options : option JsObject) (buf : Buffer),
        outcome (encryptPassword platform pbkdf env password options) = Return buf ->
        exists L : Z,
          bound_outputLength options = VNumber (NInt L) /\ 1 <= L
          /\ Z.of_nat (length buf) = L).
Proof.
  intros Hk. split; [| split].
  - intros pw options r L s Hr ? HL ? Hs ?. split; [| split].
    + intros Hmax. exists (pbkdf (derivation_call pw s r L)).
      split; [by apply encryptPassword_valid |]. split; [reflexivity |].
      apply derived_key_length; [done | lia].
    + intros Hmax.
      by apply (encryptPassword_alloc_out_of_range platform pbkdf env pw options r L s).
    + intros Hu. unfold bound_outputLength in HL.
      rewrite Hu, or_default_undefined in HL. injection HL as <-.
      split; [reflexivity | apply default_length_in_range].
  - intros password options v Hv Hbad.
    rewrite encryptPassword_unfold.
    destruct (body_run platform pbkdf password (bound_numberOfRounds options)
                (bound_outputLength options) (bound_salt env options))
      as [ | | | | | pw s r L _ Hr ? HL ? Hs ? _ | pw s r L _ Hr ? HL ? Hs ? _];
      try by eexists.
    exfalso. destruct Hbad as [[Hg Hn] | [[Hg Hn] | [Hg Hn]]]; apply Hn.
    + rewrite (bound_numberOfRounds_given _ _ Hg Hv) in Hr. by exists r.
    + rewrite (bound_outputLength_given _ _ Hg Hv) in HL. by exists L.
    + rewrite (bound_salt_given _ _ _ Hg Hv) in Hs. by exists s.
  - intros password options buf. rewrite encryptPassword_unfold.
    destruct (body_run platform pbkdf password (bound_numberOfRounds options)
                (bound_outputLength options) (bound_salt env options))
      as [ | | | | | | pw s r L _ _ _ HL ? _ _ _]; try discriminate.
    intros [= <-]. exists L. split; [done |]. split; [done |].
    apply derived_key_length; [done | lia].
Qed.

Lemma encryptPassword_exact_length_witness :
  (exists buf : Buffer,
      encryptPassword node64 checksum_pbkdf ∅ (VString (lit "correct horse"))
        (Some {[ "salt" := VString (lit "batterystapler") ]})
      = MkRun [derivation_call (lit "correct horse") (lit "batterystapler") 1 32]
              (Return buf)
      /\ Z.of_nat (length buf) = 32)
  /\ (exists e : JsError,
        encryptPassword node64 checksum_pbkdf ∅ (VString (lit "correct horse"))
          (Some {[ "salt" := VString (lit "batterystapler");
                   "outputLength" := VNumber NFraction ]})
        = MkRun [] (Throw e)).
Proof.
  destruct (encryptPassword_exact_length node64 checksum_pbkdf ∅
              checksum_pbkdf_keeps_key_length) as (Hvalid & Hinvalid & _).
  split.
  - destruct (Hvalid (lit "correct horse")
                (Some {[ "salt" := VString (lit "batterystapler") ]})
                1 32 (lit "batterystapler"))
      as (Hreturns & _ & _);
      [vm_compute; reflexivity | lia | vm_compute; reflexivity | lia
       | vm_compute; reflexivity | vm_compute; discriminate |].
    destruct Hreturns as (buf & Hrun & _ & Hlen); [vm_compute; discriminate |].
    exists buf. split; assumption.
  - apply (Hinvalid _ _ (VNumber NFraction)); [discriminate |].
    right. left. split; [vm_compute; reflexivity |].
    intros (z & Hz & _). discriminate.
Defined.

(** C1 as stated fails: this call is valid -- a string password, the default
    number of rounds, a string salt of 14 code units and the integer output
    length [2^53] -- and it does not return a buffer: on a 64-bit build
    [Buffer.alloc] throws a [RangeError]. *)
Lemma valid_call_throws_RangeError :
  positive_integer (VNumber (NInt (2 ^ 53)))
  /\ encryptPassword node64 checksum_pbkdf ∅ (VString (lit "correct horse"))
       (Some {[ "salt" := VString (lit "batterystapler");
                "outputLength" := VNumber (NInt (2 ^ 53)) ]})
     = MkRun [] (Throw RangeError).
Proof.
  split.
  - exists (2 ^ 53). split; [reflexivity | vm_compute; discriminate].
  - vm_compute. reflexivity.
Qed.




(** C9 (empty password), as amended.  The empty string is accepted as a
    password: with a valid salt, a valid number of rounds and a valid output
    length [L] that is within the range of [Buffer.alloc], the call throws
    nothing and returns a buffer of exactly [L] bytes; the primitive is
    handed an empty password buffer and [passlen = 0].  For no valid [L]
    does the empty password cause one of the validation errors: above the
    range the call throws the [RangeError] of [Buffer.alloc], as it does for
    any other password. *)
Theorem empty_password_accepted
    (platform : Platform) (pbkdf : PbkdfCall -> Buffer) (env : Env)
    (options : option JsObject) (r L : Z) (s : JsString) :
  keeps_key_length pbkdf ->
  bound_numberOfRounds options = VNumber (NInt r) -> 1 <= r ->
  bound_outputLength options = VNumber (NInt L) -> 1 <= L ->
  bound_salt env options = VString s -> minSaltLengh <= Z.of_nat (length s) ->
  (L <= MAX_LENGTH platform ->
   exists buf : Buffer,
     encryptPassword platform pbkdf env (VString (lit "")) options
     = MkRun [MkPbkdfCall [] 0 (Buffer_from s) (byte_length s) (zeros L) L r]
             (Return buf)
     /\ Z.of_nat (length buf) = L)
  /\ (MAX_LENGTH platform < L ->
      forall pw : JsString,
        encryptPassword platform pbkdf env (VString pw) options
        = MkRun [] (Throw RangeError)).
Proof.
  intros Hk Hr ? HL ? Hs ?. split.
  - intros Hmax. exists (pbkdf (derivation_call [] s r L)). split.
    + by apply encryptPassword_valid.
    + apply derived_key_length; [done | lia].
  - intros Hmax pw.
    by apply (encryptPassword_alloc_out_of_range platform pbkdf env pw options r L s).
Qed.

Lemma empty_password_accepted_witness :
  exists buf : Buffer,
    encryptPassword node64 checksum_pbkdf {[ "SALT" := lit "batterystapler" ]}
      (VString (lit "")) (Some {[ "outputLength" := VNumber (NInt 16) ]})
    = MkRun [MkPbkdfCall [] 0 (Buffer_from (lit "batterystapler"))
                         (byte_length (lit "batterystapler"))
                         (zeros 16) 16 1]
            (Return buf)
    /\ Z.of_nat (length buf) = 16.
Proof.
  destruct (empty_password_accepted node64 checksum_pbkdf
              {[ "SALT" := lit "batterystapler" ]}
              (Some {[ "outputLength" := VNumber (NInt 16) ]})
              1 16 (lit "batterystapler")) as [Hreturns _].
  - exact checksum_pbkdf_keeps_key_length.
  - vm_compute. reflexivity.
  - lia.
  - vm_compute. reflexivity.
  - lia.
  - vm_compute. reflexivity.
  - vm_compute. discriminate.
  - apply Hreturns. vm_compute. discriminate.
Defined.

(** C9 as stated fails: with the empty password, a valid salt, the default
    number of rounds and the valid output length [2^53], the call throws. *)
Lemma empty_password_throws_RangeError :
  positive_integer (VNumber (NInt (2 ^ 53)))
  /\ encryptPassword node64 checksum_pbkdf ∅ (VString (lit ""))
       (Some {[ "salt" := VString (lit "batterystapler");
                "outputLength" := VNumber (NInt (2 ^ 53)) ]})
     = MkRun [] (Throw RangeError).
Proof.
  split.
  - exists (2 ^ 53). split; [reflexivity | vm_compute; discriminate].
  - vm_compute. reflexivity.
Qed.

(** C3 (salt floor), as amended.  The floor is counted in code units, the
    string's [.length], not in bytes.  With the other inputs valid and an
    explicit salt [s]: if [s] has fewer than 8 bytes the call throws the
    salt error, making no call of the primitive; if [s] has exactly 8 code
    units the salt is accepted -- no salt error is thrown, and the call
    returns when the output length is within the range of [Buffer.alloc];
    and a salt of exactly 8 bytes is accepted only when it also has exactly
    8 code units. *)
Theorem salt_floor
    (platform : Platform) (pbkdf : PbkdfCall -> Buffer) (env : Env) (pw : JsString)
    (options : option JsObject) (s : JsString) (L : Z) :
  positive_integer (bound_numberOfRounds options) ->
  bound_outputLength options = VNumber (NInt L) -> 1 <= L ->
  get (default ∅ options) "salt" = VString s ->
  (byte_length s < 8 ->
   exists e : JsError,
     encryptPassword platform pbkdf env (VString pw) options = MkRun [] (Throw e)
     /\ InvalidSalt e)
  /\ (Z.of_nat (length s) = 8 ->
      (forall e : JsError,
          outcome (encryptPassword platform pbkdf env (VString pw) options) = Throw e ->
          ~ InvalidSalt e)
      /\ (L <= MAX_LENGTH platform ->
          exists buf : Buffer,
            outcome (encryptPassword platform pbkdf env (VString pw) options)
            = Return buf))
  /\ (byte_length s = 8 ->
      ((forall e : JsError,
           outcome (encryptPassword platform pbkdf env (VString pw) options) = Throw e ->
           ~ InvalidSalt e)
       <-> Z.of_nat (length s) = 8)
      /\ (L <= MAX_LENGTH platform ->
          ((exists buf : Buffer,
               outcome (encryptPassword platform pbkdf env (VString pw) options)
               = Return buf)
           <-> Z.of_nat (length s) = 8))).
Proof.
  intros Hr HL HL1 Hg.
  assert (Hs : bound_salt env options = VString s)
    by (by apply bound_salt_given).
  pose proof (length_le_byte_length s) as Hle.
  assert (Hshort : Z.of_nat (length s) < 8 ->
            encryptPassword platform pbkdf env (VString pw) options
            = MkRun [] (Throw (TypeError msg_salt_length))).
  { intros ?. rewrite encryptPassword_unfold, Hs, HL.
    apply body_salt_short; [done | by exists L | done]. }
  assert (Hlong : 8 <= Z.of_nat (length s) -> L <= MAX_LENGTH platform ->
            exists buf : Buffer,
              outcome (encryptPassword platform pbkdf env (VString pw) options)
              = Return buf).
  { intros ? ?. destruct Hr as (r & Hr & ?).
    eexists. by erewrite encryptPassword_valid. }
  assert (Haccepted : 8 <= Z.of_nat (length s) ->
            forall e : JsError,
              outcome (encryptPassword platform pbkdf env (VString pw) options) = Throw e ->
              ~ InvalidSalt e).
  { intros ? e. destruct Hr as (r & Hr & ?).
    destruct (Z.lt_ge_cases (MAX_LENGTH platform) L) as [Hmax | Hmax].
    - rewrite (encryptPassword_alloc_out_of_range platform pbkdf env pw options r L s)
        by done.
      unfold throw. cbn [outcome]. intros [= <-] [Habs | Habs]; discriminate Habs.
    - rewrite (encryptPassword_valid platform pbkdf env pw options r L s) by done.
      discriminate. }
  assert (Hrejected : Z.of_nat (length s) < 8 ->
            ~ forall e : JsError,
                outcome (encryptPassword platform pbkdf env (VString pw) options) = Throw e ->
                ~ InvalidSalt e).
  { intros Hlt Hnone. apply (Hnone (TypeError msg_salt_length)).
    - by rewrite (Hshort Hlt).
    - by right. }
  split; [| split].
  - intros Hb. exists (TypeError msg_salt_length). split.
    + apply Hshort. lia.
    + by right.
  - intros Heq. split; [apply Haccepted; lia | intros ?; apply Hlong; lia].
  - intros Hb. split.
    + split.
      * intros Hnone.
        destruct (Z.lt_ge_cases (Z.of_nat (length s)) 8) as [Hlt | Hge]; [| lia].
        by destruct (Hrejected Hlt).
      * intros Heq. apply Haccepted. lia.
    + intros Hmax. split.
      * intros [buf Hbuf].
        destruct (Z.lt_ge_cases (Z.of_nat (length s)) 8) as [Hlt | Hge]; [| lia].
        rewrite (Hshort Hlt) in Hbuf. discriminate.
      * intros Heq. apply Hlong; lia.
Qed.

Lemma salt_floor_witness :
  (exists e : JsError,
      encryptPassword node64 checksum_pbkdf ∅ (VString (lit "correct horse"))
        (Some {[ "salt" := VString (lit "short") ]})
      = MkRun [] (Throw e)
      /\ InvalidSalt e)
  /\ (exists buf : Buffer,
        outcome (encryptPassword node64 checksum_pbkdf ∅ (VString (lit "correct horse"))
                   (Some {[ "salt" := VString (lit "12345678") ]}))
        = Return buf).
Proof.
  split.
  - destruct (salt_floor node64 checksum_pbkdf ∅ (lit "correct horse")
                (Some {[ "salt" := VString (lit "short") ]}) (lit "short") 32)
      as (Hshort & _ & _).
    + exists 1. split; [vm_compute; reflexivity | lia].
    + vm_compute. reflexivity.
    + lia.
    + vm_compute. reflexivity.
    + apply Hshort. vm_compute. reflexivity.
  - destruct (salt_floor node64 checksum_pbkdf ∅ (lit "correct horse")
                (Some {[ "salt" := VString (lit "12345678") ]}) (lit "12345678") 32)
      as (_ & Height & _).
    + exists 1. split; [vm_compute; reflexivity | lia].
    + vm_compute. reflexivity.
    + lia.
    + vm_compute. reflexivity.
    + destruct Height as [_ Hreturns]; [vm_compute; reflexivity |].
      apply Hreturns. vm_compute. discriminate.
Defined.

(** C3 as stated fails: the salt of four code units U+00E9 has exactly 8
    bytes, the other inputs are valid, and the call throws the salt error. *)
Lemma salt_of_eight_bytes_rejected :
  byte_length [0xE9; 0xE9; 0xE9; 0xE9] = 8
  /\ encryptPassword node64 checksum_pbkdf ∅ (VString (lit "correct horse"))
       (Some {[ "salt" := VString [0xE9; 0xE9; 0xE9; 0xE9] ]})
     = MkRun [] (Throw (TypeError msg_salt_length))
  /\ InvalidSalt (TypeError msg_salt_length).
Proof.
  split; [vm_compute; reflexivity | split; [vm_compute; reflexivity | by right]].
Qed.

(** C4 (invalid-input matrix).  With the inputs checked before it valid:
    [numberOfRounds = 0] throws the number-of-rounds error; [outputLength =
    0] throws the output-length error; the salt ["short"], of 5 bytes, throws
    the salt error; a password that is not a string, a number for one,
    throws the password error whatever the options are.  Each of these runs
    makes no call of the primitive, and so does every run that ends in a
    throw: validation errors come before any derivation work. *)
Theorem invalid_input_matrix (platform : Platform) (pbkdf : PbkdfCall -> Buffer) (env : Env) :
  (forall (pw : JsString) (options : option JsObject),
      get (default ∅ options) "numberOfRounds" = VNumber (NInt 0) ->
      exists e : JsError,
        encryptPassword platform pbkdf env (VString pw) options = MkRun [] (Throw e)
        /\ InvalidRoundCount e)
  /\ (forall (pw : JsString) (options : option JsObject),
        positive_integer (bound_numberOfRounds options) ->
        get (default ∅ options) "outputLength" = VNumber (NInt 0) ->
        exists e : JsError,
          encryptPassword platform pbkdf env (VString pw) options = MkRun [] (Throw e)
          /\ InvalidOutputLength e)
  /\ (forall (pw : JsString) (options : option JsObject),
        positive_integer (bound_numberOfRounds options) ->
        positive_integer (bound_outputLength options) ->
        get (default ∅ options) "salt" = VString (lit "short") ->
        byte_length (lit "short") = 5
        /\ exists e : JsError,
          encryptPassword platform pbkdf env (VString pw) options = MkRun [] (Throw e)
          /\ InvalidSalt e)
  /\ (forall (password : JsValue) (options : option JsObject),
        (forall s : JsString, password <> VString s) ->
        exists e : JsError,
          encryptPassword platform pbkdf env password options = MkRun [] (Throw e)
          /\ InvalidPassword e)
  /\ (forall (password : JsValue) (options : option JsObject) (e : JsError),
        outcome (encryptPassword platform pbkdf env password options) = Throw e ->
        calls (encryptPassword platform pbkdf env password options) = []).
Proof.
  split; [| split; [| split; [| split]]].
  - intros pw options Hg.
    exists (TypeError msg_numberOfRounds). split; [| reflexivity].
    rewrite encryptPassword_unfold.
    rewrite (bound_numberOfRounds_given options (VNumber (NInt 0))) by done.
    apply body_numberOfRounds_invalid. intros (z & [= <-] & ?). lia.
  - intros pw options Hr Hg.
    exists (TypeError msg_outputLength). split; [| reflexivity].
    rewrite encryptPassword_unfold.
    rewrite (bound_outputLength_given options (VNumber (NInt 0))) by done.
    apply body_outputLength_invalid; [done |]. intros (z & [= <-] & ?). lia.
  - intros pw options Hr HL Hg. split; [reflexivity |].
    exists (TypeError msg_salt_length). split; [| by right].
    rewrite encryptPassword_unfold.
    rewrite (bound_salt_given env options (VString (lit "short"))) by done.
    by apply body_salt_short.
  - intros password options Hp.
    exists (TypeError msg_password). split; [| reflexivity].
    rewrite encryptPassword_unfold. apply body_password_not_string.
    destruct password; try reflexivity. by destruct (Hp s).
  - intros password options e. rewrite encryptPassword_unfold.
    apply body_throw_no_calls.
Qed.

Lemma invalid_input_matrix_witness :
  encryptPassword node64 checksum_pbkdf ∅ (VString (lit "correct horse"))
    (Some {[ "salt" := VString (lit "batterystapler");
             "numberOfRounds" := VNumber (NInt 0) ]})
  = MkRun [] (Throw (TypeError msg_numberOfRounds))
  /\ encryptPassword node64 checksum_pbkdf ∅ (VString (lit "correct horse"))
       (Some {[ "salt" := VString (lit "batterystapler");
                "outputLength" := VNumber (NInt 0) ]})
     = MkRun [] (Throw (TypeError msg_outputLength))
  /\ (exists e : JsError,
        encryptPassword node64 checksum_pbkdf ∅ (VString (lit "correct horse"))
          (Some {[ "salt" := VString (lit "short") ]})
        = MkRun [] (Throw e) /\ InvalidSalt e)
  /\ encryptPassword node64 checksum_pbkdf ∅ (VNumber (NInt 12345))
       (Some {[ "salt" := VString (lit "batterystapler") ]})
     = MkRun [] (Throw (TypeError msg_password))
  /\ calls (encryptPassword node64 checksum_pbkdf ∅ (VString (lit "correct horse")) None)
     = [].
Proof.
  destruct (invalid_input_matrix node64 checksum_pbkdf ∅)
    as (Hrounds & Hlength & Hsalt & Hpassword & Hcalls).
  split; [| split; [| split; [| split]]].
  - destruct (Hrounds (lit "correct horse")
                (Some {[ "salt" := VString (lit "batterystapler");
                         "numberOfRounds" := VNumber (NInt 0) ]}))
      as (e & -> & ->); reflexivity.
  - destruct (Hlength (lit "correct horse")
                (Some {[ "salt" := VString (lit "batterystapler");
                         "outputLength" := VNumber (NInt 0) ]}))
      as (e & -> & ->);
      [exists 1; split; [reflexivity | lia] | reflexivity | reflexivity].
  - apply (Hsalt (lit "correct horse")
             (Some {[ "salt" := VString (lit "short") ]})).
    + exists 1. split; [reflexivity | lia].
    + exists 32. split; [reflexivity | lia].
    + reflexivity.
  - destruct (Hpassword (VNumber (NInt 12345))
                (Some {[ "salt" := VString (lit "batterystapler") ]}))
      as (e & -> & ->); [discriminate | reflexivity].
  - apply (Hcalls _ _ (TypeError msg_salt_string)). reflexivity.
Defined.

(** C5 (salt resolution order).  A salt given in the options is the salt of
    the call, whatever [env.SALT] holds: the run is the same in every
    environment, and the primitive is handed the bytes of the given salt.
    When no salt is given and [env.SALT] is set, its value is the salt of
    the call: the call runs as the call given that value as its [salt]
    option, and the primitive is handed its bytes.  When no salt is given
    and [env.SALT] is unset or shorter than the floor, the call does not
    proceed: it throws without calling the primitive, and with the other
    inputs valid the error is the salt error. *)
Theorem salt_resolution_order
    (platform : Platform) (pbkdf : PbkdfCall -> Buffer) (env : Env)
    (password : JsValue) (options : option JsObject) :
  (forall v : JsValue,
      get (default ∅ options) "salt" = v -> v <> VUndefined ->
      (forall env' : Env,
          encryptPassword platform pbkdf env' password options
          = encryptPassword platform pbkdf env password options)
      /\ forall c : PbkdfCall,
          In c (calls (encryptPassword platform pbkdf env password options)) ->
          exists s : JsString, v = VString s /\ salt c = Buffer_from s)
  /\ (forall s : JsString,
        get (default ∅ options) "salt" = VUndefined ->
        env !! "SALT" = Some s ->
        (forall env' : Env,
            encryptPassword platform pbkdf env password options
            = encryptPassword platform pbkdf env' password
                (Some (<[ "salt" := VString s ]> (default ∅ options))))
        /\ (forall c : PbkdfCall,
              In c (calls (encryptPassword platform pbkdf env password options)) ->
              salt c = Buffer_from s)
        /\ (forall (pw : JsString) (r L : Z),
              password = VString pw ->
              bound_numberOfRounds options = VNumber (NInt r) -> 1 <= r ->
              bound_outputLength options = VNumber (NInt L) ->
              1 <= L <= MAX_LENGTH platform ->
              minSaltLengh <= Z.of_nat (length s) ->
              encryptPassword platform pbkdf env password options
              = MkRun [derivation_call pw s r L]
                      (Return (pbkdf (derivation_call pw s r L)))))
  /\ (get (default ∅ options) "salt" = VUndefined ->
      env !! "SALT" = None
      \/ (exists s : JsString,
             env !! "SALT" = Some s /\ Z.of_nat (length s) < minSaltLengh) ->
      exists e : JsError,
        encryptPassword platform pbkdf env password options = MkRun [] (Throw e)
        /\ ((exists pw, password = VString pw) ->
            positive_integer (bound_numberOfRounds options) ->
            positive_integer (bound_outputLength options) ->
            InvalidSalt e)).
Proof.
  split; [| split].
  - intros v Hg Hv. split.
    + intros env'.
      by rewrite !encryptPassword_unfold, !(bound_salt_given _ options v).
    + intros c. rewrite encryptPassword_unfold, (bound_salt_given env options v) by done.
      destruct (body_run platform pbkdf password (bound_numberOfRounds options)
                  (bound_outputLength options) v)
        as [ | | | | | | pw s r L _ _ _ _ _ -> _ _]; cbn [calls throw];
        try (by intros []).
      intros [<- | []]. by exists s.
  - intros s Hg Henv.
    assert (Hs : bound_salt env options = VString s)
      by (rewrite (bound_salt_default env options Hg); unfold env_get; by rewrite Henv).
    split; [| split].
    + intros env'. rewrite !encryptPassword_unfold, Hs.
      unfold bound_numberOfRounds, bound_outputLength, bound_salt.
      cbn [from_option id].
      by rewrite get_insert_eq, !get_insert_ne.
    + intros c. rewrite encryptPassword_unfold, Hs.
      destruct (body_run platform pbkdf password (bound_numberOfRounds options)
                  (bound_outputLength options) (VString s))
        as [ | | | | | | pw s' r L _ _ _ _ _ [= <-] _ _]; cbn [calls throw];
        try (by intros []).
      by intros [<- | []].
    + intros pw r L -> Hr ? HL [? ?] ?. by apply encryptPassword_valid.
  - intros Hg Hbad.
    rewrite encryptPassword_unfold, (bound_salt_default env options Hg).
    unfold env_get.
    destruct Hbad as [-> | (s & -> & Hshort)].
    + destruct (body_run platform pbkdf password (bound_numberOfRounds options)
                  (bound_outputLength options) VUndefined)
        as [Hp | pw -> Hr | pw -> ? HL | pw -> ? ? Hs | pw s -> ? ? Hs Hlen
            | pw s r L _ _ _ _ _ Hs _ _ | pw s r L _ _ _ _ _ Hs _ _];
        try discriminate Hs.
      * eexists. split; [reflexivity |]. intros [pw ->]. discriminate.
      * eexists. split; [reflexivity |]. intros _ Hr'. by destruct Hr.
      * eexists. split; [reflexivity |]. intros _ _ HL'. by destruct HL.
      * eexists. split; [reflexivity |]. intros _ _ _. by left.
    + destruct (body_run platform pbkdf password (bound_numberOfRounds options)
                  (bound_outputLength options) (VString s))
        as [Hp | pw -> Hr | pw -> ? HL | pw -> ? ? Hs | pw s' -> ? ? Hs Hlen
            | pw s' r L _ _ _ _ _ [= <-] ? _ | pw s' r L _ _ _ _ _ [= <-] ? _];
        try lia.
      * eexists. split; [reflexivity |]. intros [pw ->]. discriminate.
      * eexists. split; [reflexivity |]. intros _ Hr'. by destruct Hr.
      * eexists. split; [reflexivity |]. intros _ _ HL'. by destruct HL.
      * eexists. split; [reflexivity |]. intros _ _ _. by left.
      * eexists. split; [reflexivity |]. intros _ _ _. by right.
Qed.

Lemma salt_resolution_order_witness :
  encryptPassword node64 checksum_pbkdf {[ "SALT" := lit "from the environment" ]}
    (VString (lit "correct horse"))
    (Some {[ "salt" := VString (lit "batterystapler") ]})
  = encryptPassword node64 checksum_pbkdf ∅ (VString (lit "correct horse"))
      (Some {[ "salt" := VString (lit "batterystapler") ]})
  /\ encryptPassword node64 checksum_pbkdf {[ "SALT" := lit "from the environment" ]}
       (VString (lit "correct horse")) None
     = MkRun [derivation_call (lit "correct horse") (lit "from the environment") 1 32]
             (Return (checksum_pbkdf
                        (derivation_call (lit "correct horse")
                                         (lit "from the environment") 1 32)))
  /\ (exists e : JsError,
        encryptPassword node64 checksum_pbkdf ∅ (VString (lit "correct horse")) None
        = MkRun [] (Throw e)
        /\ InvalidSalt e).
Proof.
  split; [| split].
  - destruct (salt_resolution_order node64 checksum_pbkdf ∅
                (VString (lit "correct horse"))
                (Some {[ "salt" := VString (lit "batterystapler") ]}))
      as (Hgiven & _ & _).
    destruct (Hgiven (VString (lit "batterystapler"))) as [Henv _];
      [vm_compute; reflexivity | discriminate |].
    apply Henv.
  - destruct (salt_resolution_order node64 checksum_pbkdf
                {[ "SALT" := lit "from the environment" ]}
                (VString (lit "correct horse")) None)
      as (_ & Hdefault & _).
    destruct (Hdefault (lit "from the environment")) as (_ & _ & Hreturns);
      [vm_compute; reflexivity | vm_compute; reflexivity |].
    apply Hreturns;
      [reflexivity | vm_compute; reflexivity | lia | vm_compute; reflexivity
       | split; [lia | vm_compute; discriminate] | vm_compute; discriminate].
  - destruct (salt_resolution_order node64 checksum_pbkdf ∅
                (VString (lit "correct horse")) None)
      as (_ & _ & Hnone).
    destruct Hnone as (e & Hrun & Hkind).
    + vm_compute. reflexivity.
    + left. vm_compute. reflexivity.
    + exists e. split; [exact Hrun |]. apply Hkind.
      * by eexists.
      * exists 1. split; [vm_compute; reflexivity | lia].
      * exists 32. split; [vm_compute; reflexivity | lia].
Defined.

(** C6 (number of rounds), as amended.  For a string password, an option
    [numberOfRounds] that is given (not [undefined]) and is not an integer,
    or is an integer less than 1, makes the call throw the number-of-rounds
    error.  An option that is missing is not an error: the number of rounds
    is then 1, and whatever the call throws is not the number-of-rounds
    error. *)
Theorem numberOfRounds_validation
    (platform : Platform) (pbkdf : PbkdfCall -> Buffer) (env : Env) (options : option JsObject) :
  (forall (pw : JsString) (v : JsValue),
      get (default ∅ options) "numberOfRounds" = v -> v <> VUndefined ->
      ~ positive_integer v ->
      exists e : JsError,
        encryptPassword platform pbkdf env (VString pw) options = MkRun [] (Throw e)
        /\ InvalidRoundCount e)
  /\ (get (default ∅ options) "numberOfRounds" = VUndefined ->
      bound_numberOfRounds options = VNumber (NInt 1)
      /\ forall (password : JsValue) (e : JsError),
          outcome (encryptPassword platform pbkdf env password options) = Throw e ->
          ~ InvalidRoundCount e).
Proof.
  split.
  - intros pw v Hg Hv Hbad.
    exists (TypeError msg_numberOfRounds). split; [| reflexivity].
    rewrite encryptPassword_unfold, (bound_numberOfRounds_given options v) by done.
    by apply body_numberOfRounds_invalid.
  - intros Hg.
    assert (Hone : bound_numberOfRounds options = VNumber (NInt 1))
      by (unfold bound_numberOfRounds; by rewrite Hg).
    split; [exact Hone |].
    intros password e. rewrite encryptPassword_unfold, Hone.
    unfold InvalidRoundCount.
    destruct (body_run platform pbkdf password (VNumber (NInt 1))
                (bound_outputLength options) (bound_salt env options))
      as [ | pw _ Hr | | | | | ]; unfold throw; cbn [outcome];
      intros [= <-]; try msg_neq; try discriminate.
    intros _. apply Hr. exists 1. split; [reflexivity | lia].
Qed.

Lemma numberOfRounds_validation_witness :
  (exists e : JsError,
      encryptPassword node64 checksum_pbkdf ∅ (VString (lit "correct horse"))
        (Some {[ "salt" := VString (lit "batterystapler");
                 "numberOfRounds" := VString (lit "12") ]})
      = MkRun [] (Throw e)
      /\ InvalidRoundCount e)
  /\ bound_numberOfRounds (Some {[ "salt" := VString (lit "short") ]})
     = VNumber (NInt 1)
  /\ ~ InvalidRoundCount (TypeError msg_salt_length).
Proof.
  split; [| split].
  - destruct (numberOfRounds_validation node64 checksum_pbkdf ∅
                (Some {[ "salt" := VString (lit "batterystapler");
                         "numberOfRounds" := VString (lit "12") ]}))
      as [Hgiven _].
    apply (Hgiven _ (VString (lit "12"))); [reflexivity | discriminate |].
    intros (z & Hz & _). discriminate.
  - destruct (numberOfRounds_validation node64 checksum_pbkdf ∅
                (Some {[ "salt" := VString (lit "short") ]}))
      as [_ Hmissing].
    destruct Hmissing as [Hone _]; [reflexivity | exact Hone].
  - destruct (numberOfRounds_validation node64 checksum_pbkdf ∅
                (Some {[ "salt" := VString (lit "short") ]}))
      as [_ Hmissing].
    destruct Hmissing as [_ Hnot]; [reflexivity |].
    apply (Hnot (VString (lit "correct horse"))). reflexivity.
Defined.

(** C6 as stated fails: in this call the [numberOfRounds] option is missing,
    and the call returns a buffer instead of throwing. *)
Lemma numberOfRounds_missing_returns :
  ({[ "salt" := VString (lit "batterystapler") ]} : JsObject) !! "numberOfRounds" = None
  /\ (exists buf : Buffer,
        encryptPassword node64 checksum_pbkdf ∅ (VString (lit "correct horse"))
          (Some {[ "salt" := VString (lit "batterystapler") ]})
        = MkRun [derivation_call (lit "correct horse") (lit "batterystapler") 1 32]
                (Return buf))
  /\ ~ (exists e : JsError,
          outcome (encryptPassword node64 checksum_pbkdf ∅ (VString (lit "correct horse"))
                     (Some {[ "salt" := VString (lit "batterystapler") ]}))
          = Throw e
          /\ InvalidRoundCount e).
Proof.
  split; [vm_compute; reflexivity | split].
  - eexists. vm_compute. reflexivity.
  - intros (e & He & _). vm_compute in He. discriminate He.
Qed.

(** *** Loading the module *)

Lemma validateSaltVariable_accepts (v : JsValue) :
  v <> VUndefined ->
  validateSaltVariable v = Return tt <-> long_enough_string v.
Proof.
  intros Hv. unfold validateSaltVariable.
  destruct (is_undefined v) eqn:Hu; [by destruct v |].
  rewrite <- long_enough_string_guard.
  destruct (String.eqb (typeof v) "string"), (js_length v <? minSaltLengh);
    simpl; split; (done || by intros []).
Qed.

Lemma validateSaltVariable_rejects (v : JsValue) :
  v <> VUndefined -> ~ long_enough_string v ->
  validateSaltVariable v = Throw (TypeError msg_env_salt).
Proof.
  intros Hv Hbad.
  pose proof (validateSaltVariable_accepts v Hv) as Hacc.
  unfold validateSaltVariable in *.
  destruct (is_undefined v); [by destruct Hbad; apply Hacc |].
  destruct (negb _ || _); [done | by destruct Hbad; apply Hacc].
Qed.

(** C7 (validation at startup).  Loading the module succeeds when the SALT
    variable is not set.  When it is set and invalid -- a value that is not
    a string, or a string shorter than 8, be it counted in code units or in
    bytes -- loading throws, and nothing of the program runs after it.  The
    rule is the one of the call: a value is accepted at load time exactly
    when [encryptPassword] accepts it as the [salt] option. *)
Theorem startup_validation (platform : Platform) (pbkdf : PbkdfCall -> Buffer) :
  (forall env : Env, env !! "SALT" = None -> load_module env = Return tt)
  /\ (forall v : JsValue,
        v <> VUndefined -> ~ long_enough_string v ->
        validateSaltVariable v = Throw (TypeError msg_env_salt))
  /\ (forall (env : Env) (s : JsString) (cmds : list Command),
        env !! "SALT" = Some s ->
        Z.of_nat (length s) < 8 \/ byte_length s < 8 ->
        load_module env = Throw (TypeError msg_env_salt)
        /\ run_process platform pbkdf env cmds = Throw (TypeError msg_env_salt))
  /\ (forall (env : Env) (pw : JsString) (v : JsValue),
        v <> VUndefined ->
        (validateSaltVariable v = Return tt
         <-> exists buf : Buffer,
             outcome (encryptPassword platform pbkdf env (VString pw)
                        (Some {[ "salt" := v ]}))
             = Return buf)).
Proof.
  split; [| split; [| split]].
  - intros env Henv. unfold load_module, env_get. by rewrite Henv.
  - apply validateSaltVariable_rejects.
  - intros env s cmds Henv Hshort.
    assert (Hload : load_module env = Throw (TypeError msg_env_salt)).
    { unfold load_module, env_get. rewrite Henv.
      apply validateSaltVariable_rejects; [done |].
      intros (s' & [= <-] & Hlen).
      pose proof (length_le_byte_length s). unfold minSaltLengh in Hlen. lia. }
    split; [exact Hload |]. unfold run_process. by rewrite Hload.
  - intros env pw v Hv.
    rewrite (validateSaltVariable_accepts v Hv).
    rewrite encryptPassword_unfold.
    rewrite (bound_salt_given env (Some {[ "salt" := v ]}) v)
      by (done || apply get_insert_eq).
    change (bound_numberOfRounds (Some {[ "salt" := v ]})) with (VNumber (NInt 1)).
    change (bound_outputLength (Some {[ "salt" := v ]})) with (VNumber (NInt 32)).
    split.
    + intros (s & -> & Hlen). eexists.
      by rewrite body_valid by (done || apply default_length_in_range).
    + intros [buf Hbuf].
      destruct (body_run platform pbkdf (VString pw) (VNumber (NInt 1))
                  (VNumber (NInt 32)) v)
        as [ | | | | | | pw' s r L _ _ _ _ _ -> Hlen _]; try discriminate.
      by exists s.
Qed.

Lemma startup_validation_witness :
  load_module ∅ = Return tt
  /\ validateSaltVariable (VNumber (NInt 12345678)) = Throw (TypeError msg_env_salt)
  /\ run_process node64 checksum_pbkdf {[ "SALT" := lit "short" ]}
       [Call (VString (lit "correct horse")) None]
     = Throw (TypeError msg_env_salt)
  /\ (exists buf : Buffer,
        outcome (encryptPassword node64 checksum_pbkdf ∅ (VString (lit "correct horse"))
                   (Some {[ "salt" := VString (lit "batterystapler") ]}))
        = Return buf).
Proof.
  destruct (startup_validation node64 checksum_pbkdf)
    as (Habsent & Hreject & Hshort & Hsame).
  split; [| split; [| split]].
  - apply Habsent. reflexivity.
  - apply Hreject; [discriminate |]. intros (s & Hs & _). discriminate.
  - apply (Hshort _ (lit "short")); [reflexivity | left; reflexivity].
  - apply (Hsame ∅ (lit "correct horse") (VString (lit "batterystapler")));
      [discriminate | reflexivity].
Defined.

(** C8 (the default salt is read at every call).  A call without a [salt]
    option runs exactly as the same call with [salt] set to what [env.SALT]
    holds at that time.  So in a process whose module loaded without error,
    a write to [env.SALT] changes the calls after it: the call that follows
    the write runs as a call with the new value as its salt, and while a
    defaulted call returns with the valid salt the process started with, the
    same call throws the salt error once [env.SALT] has been set to
    ["short"]. *)
Theorem default_salt_read_at_call (platform : Platform) (pbkdf : PbkdfCall -> Buffer) :
  (forall (env : Env) (password : JsValue) (options : option JsObject),
      default ∅ options !! "salt" = None ->
      encryptPassword platform pbkdf env password options
      = encryptPassword platform pbkdf env password
          (Some (<[ "salt" := env_get env "SALT" ]> (default ∅ options))))
  /\ (forall (env0 env' : Env) (s1 : JsString) (password : JsValue)
             (options : option JsObject),
        load_module env0 = Return tt ->
        default ∅ options !! "salt" = None ->
        run_process platform pbkdf env0 [SetEnv "SALT" s1; Call password options]
        = Return [encryptPassword platform pbkdf env' password
                    (Some (<[ "salt" := VString s1 ]> (default ∅ options)))])
  /\ (forall (env0 : Env) (s0 pw : JsString),
        env0 !! "SALT" = Some s0 -> minSaltLengh <= Z.of_nat (length s0) ->
        run_process platform pbkdf env0
          [Call (VString pw) None;
           SetEnv "SALT" (lit "short");
           Call (VString pw) None]
        = Return [MkRun [derivation_call pw s0 1 32]
                        (Return (pbkdf (derivation_call pw s0 1 32)));
                  MkRun [] (Throw (TypeError msg_salt_length))]).
Proof.
  assert (Hsame : forall (env env' : Env) (password : JsValue)
                         (options : option JsObject) (v : JsValue),
             default ∅ options !! "salt" = None ->
             bound_salt env options = bound_salt env'
               (Some (<[ "salt" := v ]> (default ∅ options))) ->
             encryptPassword platform pbkdf env password options
             = encryptPassword platform pbkdf env' password
                 (Some (<[ "salt" := v ]> (default ∅ options)))).
  { intros env env' password options v Hnone Hsalt.
    rewrite !encryptPassword_unfold, Hsalt.
    unfold bound_numberOfRounds, bound_outputLength. cbn [from_option id].
    by rewrite !get_insert_ne. }
  split; [| split].
  - intros env password options Hnone. apply Hsame; [done |].
    unfold bound_salt. cbn [from_option id].
    rewrite get_insert_eq, (get_absent _ _ Hnone), or_default_undefined.
    by destruct (env_get env "SALT").
  - intros env0 env' s1 password options Hload Hnone.
    unfold run_process. rewrite Hload. cbn [run_commands]. do 2 f_equal.
    apply Hsame; [done |].
    unfold bound_salt. cbn [from_option id].
    rewrite get_insert_eq, (get_absent _ _ Hnone), or_default_undefined.
    unfold env_get. by rewrite lookup_insert_eq.
  - intros env0 s0 pw Henv Hlen.
    assert (Hload : load_module env0 = Return tt).
    { unfold load_module, env_get. rewrite Henv.
      apply validateSaltVariable_accepts; [done | by exists s0]. }
    unfold run_process. rewrite Hload. cbn [run_commands]. do 2 f_equal.
    + apply encryptPassword_valid; try done.
      * unfold bound_salt, env_get. by rewrite Henv.
      * apply default_length_in_range.
    + f_equal. rewrite encryptPassword_unfold.
      replace (bound_salt (<[ "SALT" := lit "short" ]> env0) None)
        with (VString (lit "short"))
        by (unfold bound_salt, env_get; by rewrite lookup_insert_eq).
      apply body_salt_short; [by exists 1 | by exists 32 | done].
Qed.

Lemma default_salt_read_at_call_witness :
  encryptPassword node64 checksum_pbkdf {[ "SALT" := lit "batterystapler" ]}
    (VString (lit "correct horse")) None
  = encryptPassword node64 checksum_pbkdf {[ "SALT" := lit "batterystapler" ]}
      (VString (lit "correct horse"))
      (Some {[ "salt" := VString (lit "batterystapler") ]})
  /\ run_process node64 checksum_pbkdf {[ "SALT" := lit "batterystapler" ]}
       [SetEnv "SALT" (lit "another salt");
        Call (VString (lit "correct horse")) None]
     = Return [encryptPassword node64 checksum_pbkdf ∅ (VString (lit "correct horse"))
                 (Some {[ "salt" := VString (lit "another salt") ]})]
  /\ run_process node64 checksum_pbkdf {[ "SALT" := lit "batterystapler" ]}
       [Call (VString (lit "correct horse")) None;
        SetEnv "SALT" (lit "short");
        Call (VString (lit "correct horse")) None]
     = Return [MkRun [derivation_call (lit "correct horse") (lit "batterystapler") 1 32]
                     (Return (checksum_pbkdf
                                (derivation_call (lit "correct horse")
                                                 (lit "batterystapler") 1 32)));
               MkRun [] (Throw (TypeError msg_salt_length))].
Proof.
  destruct (default_salt_read_at_call node64 checksum_pbkdf)
    as (Hread & Hwrite & Hshort).
  split; [| split].
  - rewrite (Hread {[ "SALT" := lit "batterystapler" ]}
               (VString (lit "correct horse")) None) by reflexivity.
    vm_compute. reflexivity.
  - rewrite (Hwrite {[ "SALT" := lit "batterystapler" ]} ∅ (lit "another salt")
               (VString (lit "correct horse")) None) by reflexivity.
    vm_compute. reflexivity.
  - apply (Hshort {[ "SALT" := lit "batterystapler" ]} (lit "batterystapler")
             (lit "correct horse")); [reflexivity | vm_compute; discriminate].
Defined.

(** C10 (a salt option of [undefined]).  An options object whose [salt] is
    [undefined] is not rejected for its salt.  The call runs as the call
    without the [salt] option does: the salt is [env.SALT], and it is this
    value that is validated.  With the other inputs valid: when [env.SALT]
    is a string of at least 8 code units no salt error is thrown, and the
    call returns, the primitive being handed the bytes of [env.SALT], when
    the output length is within the range of [Buffer.alloc]; when [env.SALT]
    is shorter the call throws the salt error of the length check; when it
    is unset, that of the type check. *)
Theorem salt_undefined_is_omitted
    (platform : Platform) (pbkdf : PbkdfCall -> Buffer) (env : Env)
    (password : JsValue) (o : JsObject) :
  encryptPassword platform pbkdf env password (Some (<[ "salt" := VUndefined ]> o))
  = encryptPassword platform pbkdf env password (Some (delete "salt" o))
  /\ encryptPassword platform pbkdf env password (Some (<[ "salt" := VUndefined ]> o))
     = encryptPassword_body platform pbkdf password (bound_numberOfRounds (Some o))
         (bound_outputLength (Some o)) (env_get env "SALT")
  /\ (forall (pw s : JsString) (r L : Z),
        password = VString pw ->
        bound_numberOfRounds (Some o) = VNumber (NInt r) -> 1 <= r ->
        bound_outputLength (Some o) = VNumber (NInt L) -> 1 <= L ->
        env !! "SALT" = Some s ->
        (minSaltLengh <= Z.of_nat (length s) ->
         (forall e : JsError,
             outcome (encryptPassword platform pbkdf env password
                        (Some (<[ "salt" := VUndefined ]> o))) = Throw e ->
             ~ InvalidSalt e)
         /\ (L <= MAX_LENGTH platform ->
             encryptPassword platform pbkdf env password
               (Some (<[ "salt" := VUndefined ]> o))
             = MkRun [derivation_call pw s r L]
                     (Return (pbkdf (derivation_call pw s r L)))))
        /\ (Z.of_nat (length s) < minSaltLengh ->
            encryptPassword platform pbkdf env password
              (Some (<[ "salt" := VUndefined ]> o))
            = MkRun [] (Throw (TypeError msg_salt_length))))
  /\ (forall pw : JsString,
        password = VString pw ->
        positive_integer (bound_numberOfRounds (Some o)) ->
        positive_integer (bound_outputLength (Some o)) ->
        env !! "SALT" = None ->
        encryptPassword platform pbkdf env password
          (Some (<[ "salt" := VUndefined ]> o))
        = MkRun [] (Throw (TypeError msg_salt_string))).
Proof.
  assert (Hbody : encryptPassword platform pbkdf env password
                    (Some (<[ "salt" := VUndefined ]> o))
                  = encryptPassword_body platform pbkdf password
                      (bound_numberOfRounds (Some o))
                      (bound_outputLength (Some o)) (env_get env "SALT")).
  { rewrite encryptPassword_unfold.
    unfold bound_numberOfRounds, bound_outputLength, bound_salt.
    cbn [from_option id].
    by rewrite get_insert_eq, !get_insert_ne, or_default_undefined. }
  split; [| split; [| split]].
  - rewrite Hbody, encryptPassword_unfold.
    unfold bound_numberOfRounds, bound_outputLength, bound_salt.
    cbn [from_option id].
    by rewrite get_delete_eq, !get_delete_ne, or_default_undefined.
  - exact Hbody.
  - intros pw s r L -> Hr ? HL ? Henv.
    rewrite Hbody, Hr, HL. unfold env_get. rewrite Henv. split.
    + intros Hlen. split.
      * intros e.
        destruct (Z.lt_ge_cases (MAX_LENGTH platform) L) as [Hmax | Hmax].
        -- rewrite body_alloc_out_of_range by done.
           unfold throw. cbn [outcome].
           intros [= <-] [Habs | Habs]; discriminate Habs.
        -- rewrite body_valid by done. discriminate.
      * intros Hmax. by apply body_valid.
    + intros Hlen. apply body_salt_short; [by exists r | by exists L | done].
  - intros pw -> Hr HL Henv.
    rewrite Hbody. unfold env_get. rewrite Henv.
    by apply body_salt_not_string.
Qed.

Lemma salt_undefined_is_omitted_witness :
  encryptPassword node64 checksum_pbkdf {[ "SALT" := lit "batterystapler" ]}
    (VString (lit "correct horse"))
    (Some (<[ "salt" := VUndefined ]> {[ "numberOfRounds" := VNumber (NInt 2) ]}))
  = MkRun [derivation_call (lit "correct horse") (lit "batterystapler") 2 32]
          (Return (checksum_pbkdf
                     (derivation_call (lit "correct horse")
                                      (lit "batterystapler") 2 32)))
  /\ encryptPassword node64 checksum_pbkdf {[ "SALT" := lit "short" ]}
       (VString (lit "correct horse"))
       (Some (<[ "salt" := VUndefined ]> {[ "numberOfRounds" := VNumber (NInt 2) ]}))
     = MkRun [] (Throw (TypeError msg_salt_length)).
Proof.
  split.
  - destruct (salt_undefined_is_omitted node64 checksum_pbkdf
                {[ "SALT" := lit "batterystapler" ]}
                (VString (lit "correct horse"))
                {[ "numberOfRounds" := VNumber (NInt 2) ]})
      as (_ & _ & Hset & _).
    destruct (Hset (lit "correct horse") (lit "batterystapler") 2 32)
      as [Hlong _];
      [reflexivity | vm_compute; reflexivity | lia | vm_compute; reflexivity
       | lia | vm_compute; reflexivity |].
    destruct Hlong as [_ Hreturns]; [vm_compute; discriminate |].
    apply Hreturns. vm_compute. discriminate.
  - destruct (salt_undefined_is_omitted node64 checksum_pbkdf
                {[ "SALT" := lit "short" ]}
                (VString (lit "correct horse"))
                {[ "numberOfRounds" := VNumber (NInt 2) ]})
      as (_ & _ & Hset & _).
    destruct (Hset (lit "correct horse") (lit "short") 2 32)
      as [_ Hshort];
      [reflexivity | vm_compute; reflexivity | lia | vm_compute; reflexivity
       | lia | vm_compute; reflexivity |].
    apply Hshort. vm_compute. reflexivity.
Defined.

(** ** Further properties of the module *)

(** *** Which way out of the body a run takes *)

Section Exits.

Variable platform : Platform.
Variable pbkdf : PbkdfCall -> Buffer.

(** A run that ends in a throw of message [m] took the exit of [m]: the
    other exits are closed by their outcome. *)
Ltac other_exits H :=
  unfold throw in H; cbn [outcome] in H;
  lazymatch type of H with
  | Return _ = Throw _ => discriminate H
  | Throw _ = Return _ => discriminate H
  | Throw RangeError = Throw (TypeError _) => discriminate H
  | Throw (TypeError _) = Throw RangeError => discriminate H
  | Throw RangeError = Throw RangeError => idtac
  | Throw (TypeError ?m) = Throw (TypeError ?m) => idtac
  | Throw _ = Throw _ =>
    exfalso; clear -H; injection H as H; vm_compute in H; discriminate H
  | Return _ = Return _ => idtac
  end.

Lemma body_returns_iff (password numberOfRounds outputLength salt : JsValue) :
  (exists buf : Buffer,
      outcome (encryptPassword_body platform pbkdf password numberOfRounds outputLength salt)
      = Return buf)
  <-> (exists pw, password = VString pw)
      /\ positive_integer numberOfRounds
      /\ (exists L, outputLength = VNumber (NInt L)
                    /\ 1 <= L <= MAX_LENGTH platform)
      /\ long_enough_string salt.
Proof.
  split.
  - intros [buf H].
    destruct (body_run platform pbkdf password numberOfRounds outputLength salt)
      as [ | | | | | | pw s r L -> -> ? -> ? -> ? ?]; other_exits H.
    split; [by eexists |]. split; [by eexists |]. split; by eexists.
  - intros ([pw ->] & (r & -> & ?) & (L & -> & ? & ?) & (s & -> & ?)).
    eexists. by rewrite body_valid.
Qed.

Lemma body_throws_password_iff (password numberOfRounds outputLength salt : JsValue) :
  outcome (encryptPassword_body platform pbkdf password numberOfRounds outputLength salt)
  = Throw (TypeError msg_password)
  <-> forall s, password <> VString s.
Proof.
  split.
  - intros H s ->.
    destruct (body_run platform pbkdf (VString s) numberOfRounds outputLength salt)
      as [Hp | | | | | | ]; other_exits H.
    discriminate Hp.
  - intros Hp. rewrite body_password_not_string; [done |].
    destruct password; try reflexivity. by destruct (Hp s).
Qed.

Lemma body_throws_numberOfRounds_iff (password numberOfRounds outputLength salt : JsValue) :
  outcome (encryptPassword_body platform pbkdf password numberOfRounds outputLength salt)
  = Throw (TypeError msg_numberOfRounds)
  <-> (exists pw, password = VString pw) /\ ~ positive_integer numberOfRounds.
Proof.
  split.
  - intros H.
    destruct (body_run platform pbkdf password numberOfRounds outputLength salt)
      as [ | pw -> ? | | | | | ]; other_exits H.
    split; [by eexists | done].
  - intros [[pw ->] ?]. by rewrite body_numberOfRounds_invalid.
Qed.

Lemma body_throws_outputLength_iff (password numberOfRounds outputLength salt : JsValue) :
  outcome (encryptPassword_body platform pbkdf password numberOfRounds outputLength salt)
  = Throw (TypeError msg_outputLength)
  <-> (exists pw, password = VString pw)
      /\ positive_integer numberOfRounds
      /\ ~ positive_integer outputLength.
Proof.
  split.
  - intros H.
    destruct (body_run platform pbkdf password numberOfRounds outputLength salt)
      as [ | | pw -> ? ? | | | | ]; other_exits H.
    split; [by eexists | done].
  - intros ([pw ->] & ? & ?). by rewrite body_outputLength_invalid.
Qed.

Lemma body_throws_salt_string_iff (password numberOfRounds outputLength salt : JsValue) :
  outcome (encryptPassword_body platform pbkdf password numberOfRounds outputLength salt)
  = Throw (TypeError msg_salt_string)
  <-> (exists pw, password = VString pw)
      /\ positive_integer numberOfRounds
      /\ positive_integer outputLength
      /\ forall s, salt <> VString s.
Proof.
  split.
  - intros H.
    destruct (body_run platform pbkdf password numberOfRounds outputLength salt)
      as [ | | | pw -> ? ? Hs | | | ]; other_exits H.
    split; [by eexists |]. split; [done |]. split; [done |].
    intros s ->. discriminate Hs.
  - intros ([pw ->] & ? & ? & Hs). rewrite body_salt_not_string; try done.
    destruct salt; try reflexivity. by destruct (Hs s).
Qed.

Lemma body_throws_salt_length_iff (password numberOfRounds outputLength salt : JsValue) :
  outcome (encryptPassword_body platform pbkdf password numberOfRounds outputLength salt)
  = Throw (TypeError msg_salt_length)
  <-> (exists pw, password = VString pw)
      /\ positive_integer numberOfRounds
      /\ positive_integer outputLength
      /\ exists s, salt = VString s /\ Z.of_nat (length s) < minSaltLengh.
Proof.
  split.
  - intros H.
    destruct (body_run platform pbkdf password numberOfRounds outputLength salt)
      as [ | | | | pw s Hp ? ? Hs ? | | ]; other_exits H.
    split; [by eexists |]. split; [done |]. split; [done |]. by eexists.
  - intros ([pw ->] & ? & ? & s & -> & ?). by rewrite body_salt_short.
Qed.

Lemma body_throws_RangeError_iff (password numberOfRounds outputLength salt : JsValue) :
  outcome (encryptPassword_body platform pbkdf password numberOfRounds outputLength salt)
  = Throw RangeError
  <-> (exists pw, password = VString pw)
      /\ positive_integer numberOfRounds
      /\ (exists L, outputLength = VNumber (NInt L)
                    /\ 1 <= L /\ MAX_LENGTH platform < L)
      /\ long_enough_string salt.
Proof.
  split.
  - intros H.
    destruct (body_run platform pbkdf password numberOfRounds outputLength salt)
      as [ | | | | | pw s r L Hp Hr ? HL ? Hs ? ? | ]; other_exits H.
    split; [by eexists |]. split; [by eexists |]. split; by eexists.
  - intros ([pw ->] & (r & -> & ?) & (L & -> & ? & ?) & (s & -> & ?)).
    by rewrite body_alloc_out_of_range.
Qed.

Lemma body_throws_one_of_six
    (password numberOfRounds outputLength salt : JsValue) (e : JsError) :
  outcome (encryptPassword_body platform pbkdf password numberOfRounds outputLength salt)
  = Throw e ->
  e = RangeError
  \/ exists m, e = TypeError m
       /\ In m [msg_password; msg_numberOfRounds; msg_outputLength;
                msg_salt_string; msg_salt_length].
Proof.
  destruct (body_run platform pbkdf password numberOfRounds outputLength salt);
    unfold throw; cbn [outcome]; intros [= <-];
    first [by left | right; eexists; (split; [reflexivity | cbn [In]; tauto])].
Qed.

(** The calls of a run: none, or the one of the return. *)
Lemma body_calls (password numberOfRounds outputLength salt : JsValue) (c : PbkdfCall) :
  In c (calls (encryptPassword_body platform pbkdf password numberOfRounds outputLength salt)) ->
  exists pw s r L,
    password = VString pw /\ numberOfRounds = VNumber (NInt r) /\ 1 <= r
    /\ outputLength = VNumber (NInt L) /\ 1 <= L
    /\ salt = VString s /\ minSaltLengh <= Z.of_nat (length s)
    /\ L <= MAX_LENGTH platform
    /\ c = derivation_call pw s r L
    /\ encryptPassword_body platform pbkdf password numberOfRounds outputLength salt
       = MkRun [c] (Return (pbkdf c)).
Proof.
  destruct (body_run platform pbkdf password numberOfRounds outputLength salt)
    as [ | | | | | | pw s r L]; unfold throw; cbn [calls In]; try tauto.
  intros [<- | []]. by exists pw, s, r, L.
Qed.

End Exits.

(** X1 (when a call returns).  For a call whose second argument is left out
    or is an object, [encryptPassword] returns a buffer exactly when the
    password is a string and, after the defaults, the number of rounds is an
    integer that is at least 1, the output length is an integer from 1 to
    [MAX_LENGTH], and the salt is a string of at least 8 code units. *)
Theorem encryptPassword_returns_iff
    (platform : Platform) (pbkdf : PbkdfCall -> Buffer) (env : Env)
    (password : JsValue) (options : option JsObject) :
  (exists buf : Buffer,
      outcome (encryptPassword platform pbkdf env password options) = Return buf)
  <-> (exists pw, password = VString pw)
      /\ positive_integer (bound_numberOfRounds options)
      /\ (exists L, bound_outputLength options = VNumber (NInt L)
                    /\ 1 <= L <= MAX_LENGTH platform)
      /\ long_enough_string (bound_salt env options).
Proof. rewrite encryptPassword_unfold. apply body_returns_iff. Qed.

Lemma encryptPassword_returns_iff_witness :
  (exists buf : Buffer,
      outcome (encryptPassword node64 checksum_pbkdf {[ "SALT" := lit "batterystapler" ]}
                 (VString (lit "correct horse")) None)
      = Return buf)
  /\ ~ (exists buf : Buffer,
          outcome (encryptPassword node64 checksum_pbkdf
                     {[ "SALT" := lit "batterystapler" ]}
                     (VString (lit "correct horse"))
                     (Some {[ "outputLength" := VNumber (NInt (2 ^ 53)) ]}))
          = Return buf).
Proof.
  split.
  - apply (encryptPassword_returns_iff node64 checksum_pbkdf
             {[ "SALT" := lit "batterystapler" ]}
             (VString (lit "correct horse")) None).
    split; [by eexists |].
    split; [exists 1; split; [vm_compute; reflexivity | lia] |].
    split; [exists 32; split; [vm_compute; reflexivity
                              | split; [lia | vm_compute; discriminate]] |].
    exists (lit "batterystapler").
    split; [vm_compute; reflexivity | vm_compute; discriminate].
  - intros Hreturns.
    apply (encryptPassword_returns_iff node64 checksum_pbkdf
             {[ "SALT" := lit "batterystapler" ]}
             (VString (lit "correct horse"))
             (Some {[ "outputLength" := VNumber (NInt (2 ^ 53)) ]})) in Hreturns.
    destruct Hreturns as (_ & _ & (L & HL & _ & Hmax) & _).
    vm_compute in HL. injection HL as <-. vm_compute in Hmax. by apply Hmax.
Defined.

(** X2 (which error is thrown).  For a call whose second argument is left
    out or is an object: the checks run in the order password, number of
    rounds, output length, type of the salt, length of the salt, and the
    error thrown is the one of the first check that fails -- each of the five
    messages is thrown exactly when the checks before its own pass and its
    own fails.  When all five pass, the [RangeError] of [Buffer.alloc] is
    thrown exactly when the output length is above [MAX_LENGTH].  No other
    error is thrown, and no throw follows a call of the primitive. *)
Theorem error_of_first_failed_check
    (platform : Platform) (pbkdf : PbkdfCall -> Buffer) (env : Env)
    (password : JsValue) (options : option JsObject) :
  (outcome (encryptPassword platform pbkdf env password options)
   = Throw (TypeError msg_password)
   <-> forall s, password <> VString s)
  /\ (outcome (encryptPassword platform pbkdf env password options)
      = Throw (TypeError msg_numberOfRounds)
      <-> (exists pw, password = VString pw)
          /\ ~ positive_integer (bound_numberOfRounds options))
  /\ (outcome (encryptPassword platform pbkdf env password options)
      = Throw (TypeError msg_outputLength)
      <-> (exists pw, password = VString pw)
          /\ positive_integer (bound_numberOfRounds options)
          /\ ~ positive_integer (bound_outputLength options))
  /\ (outcome (encryptPassword platform pbkdf env password options)
      = Throw (TypeError msg_salt_string)
      <-> (exists pw, password = VString pw)
          /\ positive_integer (bound_numberOfRounds options)
          /\ positive_integer (bound_outputLength options)
          /\ forall s, bound_salt env options <> VString s)
  /\ (outcome (encryptPassword platform pbkdf env password options)
      = Throw (TypeError msg_salt_length)
      <-> (exists pw, password = VString pw)
          /\ positive_integer (bound_numberOfRounds options)
          /\ positive_integer (bound_outputLength options)
          /\ exists s, bound_salt env options = VString s
                       /\ Z.of_nat (length s) < minSaltLengh)
  /\ (outcome (encryptPassword platform pbkdf env password options)
      = Throw RangeError
      <-> (exists pw, password = VString pw)
          /\ positive_integer (bound_numberOfRounds options)
          /\ (exists L, bound_outputLength options = VNumber (NInt L)
                        /\ 1 <= L /\ MAX_LENGTH platform < L)
          /\ long_enough_string (bound_salt env options))
  /\ (forall e : JsError,
        outcome (encryptPassword platform pbkdf env password options) = Throw e ->
        calls (encryptPassword platform pbkdf env password options) = []
        /\ (e = RangeError
            \/ exists m, e = TypeError m
                 /\ In m [msg_password; msg_numberOfRounds; msg_outputLength;
                          msg_salt_string; msg_salt_length])).
Proof.
  rewrite encryptPassword_unfold.
  split; [apply body_throws_password_iff |].
  split; [apply body_throws_numberOfRounds_iff |].
  split; [apply body_throws_outputLength_iff |].
  split; [apply body_throws_salt_string_iff |].
  split; [apply body_throws_salt_length_iff |].
  split; [apply body_throws_RangeError_iff |].
  intros e He. split.
  - by eapply body_throw_no_calls.
  - by eapply body_throws_one_of_six.
Qed.

Lemma error_of_first_failed_check_witness :
  outcome (encryptPassword node64 checksum_pbkdf ∅ (VBoolean true)
             (Some {[ "numberOfRounds" := VNumber (NInt 0);
                      "outputLength" := VNumber NNaN ]}))
  = Throw (TypeError msg_password)
  /\ outcome (encryptPassword node64 checksum_pbkdf ∅ (VString (lit "correct horse"))
                (Some {[ "numberOfRounds" := VNumber (NInt 0);
                         "outputLength" := VNumber NNaN ]}))
     = Throw (TypeError msg_numberOfRounds)
  /\ outcome (encryptPassword node64 checksum_pbkdf ∅ (VString (lit "correct horse"))
                (Some {[ "outputLength" := VNumber NNaN ]}))
     = Throw (TypeError msg_outputLength)
  /\ outcome (encryptPassword node64 checksum_pbkdf ∅ (VString (lit "correct horse"))
                (Some {[ "salt" := VString (lit "batterystapler");
                         "outputLength" := VNumber (NInt (2 ^ 53)) ]}))
     = Throw RangeError.
Proof.
  destruct (error_of_first_failed_check node64 checksum_pbkdf ∅ (VBoolean true)
              (Some {[ "numberOfRounds" := VNumber (NInt 0);
                       "outputLength" := VNumber NNaN ]}))
    as (Hpassword & _).
  destruct (error_of_first_failed_check node64 checksum_pbkdf ∅
              (VString (lit "correct horse"))
              (Some {[ "numberOfRounds" := VNumber (NInt 0);
                       "outputLength" := VNumber NNaN ]}))
    as (_ & Hrounds & _).
  destruct (error_of_first_failed_check node64 checksum_pbkdf ∅
              (VString (lit "correct horse"))
              (Some {[ "outputLength" := VNumber NNaN ]}))
    as (_ & _ & Hlength & _).
  destruct (error_of_first_failed_check node64 checksum_pbkdf ∅
              (VString (lit "correct horse"))
              (Some {[ "salt" := VString (lit "batterystapler");
                       "outputLength" := VNumber (NInt (2 ^ 53)) ]}))
    as (_ & _ & _ & _ & _ & Hrange & _).
  split; [| split; [| split]].
  - apply Hpassword. discriminate.
  - apply Hrounds. split; [by eexists |].
    intros (z & Hz & Hpos). vm_compute in Hz. injection Hz as <-. lia.
  - apply Hlength. split; [by eexists |].
    split; [exists 1; split; [vm_compute; reflexivity | lia] |].
    intros (z & Hz & _). vm_compute in Hz. discriminate Hz.
  - apply Hrange. split; [by eexists |].
    split; [exists 1; split; [vm_compute; reflexivity | lia] |].
    split; [exists (2 ^ 53);
            split; [vm_compute; reflexivity
                   | split; [vm_compute; discriminate | vm_compute; reflexivity]] |].
    exists (lit "batterystapler").
    split; [vm_compute; reflexivity | vm_compute; discriminate].
Defined.

(** X3 ([undefined] and [null] in the options).  For the two numeric options
    as for the salt, a property set to [undefined] is the same as a property
    left out.  [null] is not: it is never replaced by a default.  With a
    string password, [numberOfRounds: null] throws the number-of-rounds
    error; with a valid number of rounds, [outputLength: null] throws the
    output-length error; and with both numbers valid, [salt: null] throws
    the salt error, whatever [env.SALT] holds. *)
Theorem undefined_defaults_null_throws
    (platform : Platform) (pbkdf : PbkdfCall -> Buffer) (env : Env) (password : JsValue) (o : JsObject) :
  encryptPassword platform pbkdf env password (Some (<[ "numberOfRounds" := VUndefined ]> o))
  = encryptPassword platform pbkdf env password (Some (delete "numberOfRounds" o))
  /\ encryptPassword platform pbkdf env password (Some (<[ "outputLength" := VUndefined ]> o))
     = encryptPassword platform pbkdf env password (Some (delete "outputLength" o))
  /\ (forall pw : JsString,
        password = VString pw ->
        encryptPassword platform pbkdf env password (Some (<[ "numberOfRounds" := VNull ]> o))
        = MkRun [] (Throw (TypeError msg_numberOfRounds)))
  /\ (forall pw : JsString,
        password = VString pw ->
        positive_integer (bound_numberOfRounds (Some o)) ->
        encryptPassword platform pbkdf env password (Some (<[ "outputLength" := VNull ]> o))
        = MkRun [] (Throw (TypeError msg_outputLength)))
  /\ (forall pw : JsString,
        password = VString pw ->
        positive_integer (bound_numberOfRounds (Some o)) ->
        positive_integer (bound_outputLength (Some o)) ->
        encryptPassword platform pbkdf env password (Some (<[ "salt" := VNull ]> o))
        = MkRun [] (Throw (TypeError msg_salt_string))).
Proof.
  split; [| split; [| split; [| split]]].
  - rewrite !encryptPassword_unfold.
    unfold bound_numberOfRounds, bound_outputLength, bound_salt.
    cbn [from_option id].
    by rewrite get_insert_eq, get_delete_eq, !get_insert_ne, !get_delete_ne.
  - rewrite !encryptPassword_unfold.
    unfold bound_numberOfRounds, bound_outputLength, bound_salt.
    cbn [from_option id].
    by rewrite get_insert_eq, get_delete_eq, !get_insert_ne, !get_delete_ne.
  - intros pw ->. rewrite encryptPassword_unfold.
    apply body_numberOfRounds_invalid.
    unfold bound_numberOfRounds. cbn [from_option id].
    rewrite get_insert_eq. intros (z & Hz & _). discriminate Hz.
  - intros pw -> Hr. rewrite encryptPassword_unfold.
    apply body_outputLength_invalid.
    + unfold bound_numberOfRounds in *. cbn [from_option id] in *.
      by rewrite get_insert_ne.
    + unfold bound_outputLength. cbn [from_option id].
      rewrite get_insert_eq. intros (z & Hz & _). discriminate Hz.
  - intros pw -> Hr HL. rewrite encryptPassword_unfold.
    replace (bound_salt env (Some (<[ "salt" := VNull ]> o))) with VNull
      by (unfold bound_salt; cbn [from_option id]; by rewrite get_insert_eq).
    apply body_salt_not_string; [| | reflexivity].
    + unfold bound_numberOfRounds in *. cbn [from_option id] in *.
      by rewrite get_insert_ne.
    + unfold bound_outputLength in *. cbn [from_option id] in *.
      by rewrite get_insert_ne.
Qed.

Lemma undefined_defaults_null_throws_witness :
  encryptPassword node64 checksum_pbkdf {[ "SALT" := lit "batterystapler" ]}
    (VString (lit "correct horse"))
    (Some (<[ "salt" := VNull ]> {[ "numberOfRounds" := VNumber (NInt 2) ]}))
  = MkRun [] (Throw (TypeError msg_salt_string))
  /\ encryptPassword node64 checksum_pbkdf {[ "SALT" := lit "batterystapler" ]}
       (VString (lit "correct horse"))
       (Some (<[ "numberOfRounds" := VNull ]> ∅))
     = MkRun [] (Throw (TypeError msg_numberOfRounds)).
Proof.
  destruct (undefined_defaults_null_throws node64 checksum_pbkdf
              {[ "SALT" := lit "batterystapler" ]}
              (VString (lit "correct horse"))
              {[ "numberOfRounds" := VNumber (NInt 2) ]})
    as (_ & _ & _ & _ & Hsalt).
  destruct (undefined_defaults_null_throws node64 checksum_pbkdf
              {[ "SALT" := lit "batterystapler" ]}
              (VString (lit "correct horse")) ∅)
    as (_ & _ & Hrounds & _ & _).
  split.
  - apply (Hsalt (lit "correct horse")); [reflexivity | |].
    + exists 2. split; [reflexivity | lia].
    + exists 32. split; [reflexivity | lia].
  - apply (Hrounds (lit "correct horse")). reflexivity.
Defined.

(** X4 (the documented defaults).  The defaults are 1 round, 32 bytes and
    [env.SALT]: writing a default out changes nothing.  A call with the
    options left out runs as the call with the empty options object; adding
    [numberOfRounds: 1] or [outputLength: 32] to an options object without
    that property does not change the run; and when [env.SALT] is set, the
    call without options runs as the call given all three values, in any
    environment. *)
Theorem defaults_written_out
    (platform : Platform) (pbkdf : PbkdfCall -> Buffer) (env : Env) (password : JsValue) :
  encryptPassword platform pbkdf env password None
  = encryptPassword platform pbkdf env password (Some ∅)
  /\ (forall o : JsObject,
        o !! "numberOfRounds" = None ->
        encryptPassword platform pbkdf env password
          (Some (<[ "numberOfRounds" := VNumber (NInt 1) ]> o))
        = encryptPassword platform pbkdf env password (Some o))
  /\ (forall o : JsObject,
        o !! "outputLength" = None ->
        encryptPassword platform pbkdf env password
          (Some (<[ "outputLength" := VNumber (NInt 32) ]> o))
        = encryptPassword platform pbkdf env password (Some o))
  /\ (forall (s : JsString) (env' : Env),
        env !! "SALT" = Some s ->
        encryptPassword platform pbkdf env password None
        = encryptPassword platform pbkdf env' password
            (Some (<[ "numberOfRounds" := VNumber (NInt 1) ]>
                     (<[ "outputLength" := VNumber (NInt 32) ]>
                        {[ "salt" := VString s ]})))).
Proof.
  split; [reflexivity |]. split; [| split].
  - intros o Ho. rewrite !encryptPassword_unfold.
    unfold bound_numberOfRounds, bound_outputLength, bound_salt.
    cbn [from_option id].
    by rewrite get_insert_eq, !get_insert_ne, (get_absent o "numberOfRounds").
  - intros o Ho. rewrite !encryptPassword_unfold.
    unfold bound_numberOfRounds, bound_outputLength, bound_salt.
    cbn [from_option id].
    by rewrite get_insert_eq, !get_insert_ne, (get_absent o "outputLength").
  - intros s env' Henv. rewrite !encryptPassword_unfold.
    unfold bound_numberOfRounds, bound_outputLength, bound_salt.
    cbn [from_option id].
    rewrite get_insert_eq, !(get_insert_ne _ "numberOfRounds") by done.
    rewrite get_insert_eq, !(get_insert_ne _ "outputLength") by done.
    unfold get at 4. rewrite lookup_singleton_eq.
    unfold env_get at 1. rewrite Henv. reflexivity.
Qed.

Lemma defaults_written_out_witness :
  encryptPassword node64 checksum_pbkdf {[ "SALT" := lit "batterystapler" ]}
    (VString (lit "correct horse")) None
  = encryptPassword node64 checksum_pbkdf ∅ (VString (lit "correct horse"))
      (Some (<[ "numberOfRounds" := VNumber (NInt 1) ]>
               (<[ "outputLength" := VNumber (NInt 32) ]>
                  {[ "salt" := VString (lit "batterystapler") ]}))).
Proof.
  destruct (defaults_written_out node64 checksum_pbkdf
              {[ "SALT" := lit "batterystapler" ]}
              (VString (lit "correct horse")))
    as (_ & _ & _ & Hall).
  apply (Hall (lit "batterystapler") ∅). reflexivity.
Defined.

(** *** UTF-8: how many bytes a string takes *)

Lemma utf8_of_code_point_one_byte (cp : Z) :
  length (utf8_of_code_point cp) = 1%nat <-> cp < 0x80.
Proof.
  unfold utf8_of_code_point.
  destruct (Z.ltb_spec cp 0x80); [| destruct (Z.ltb_spec cp 0x800);
                                    [| destruct (Z.ltb_spec cp 0x10000)]];
    cbn [length]; split; intros; (lia || discriminate).
Qed.

Lemma utf8_of_code_point_at_most_three (cp : Z) :
  cp < 0x10000 -> (length (utf8_of_code_point cp) <= 3)%nat.
Proof.
  intros Hcp. unfold utf8_of_code_point.
  destruct (Z.ltb_spec cp 0x80); [| destruct (Z.ltb_spec cp 0x800);
                                    [| destruct (Z.ltb_spec cp 0x10000)]];
    cbn [length]; lia.
Qed.

Lemma not_surrogate_below_0x80 (u : Z) :
  u < 0x80 -> is_high_surrogate u = false /\ is_low_surrogate u = false.
Proof.
  intros Hu. unfold is_high_surrogate, is_low_surrogate.
  split; apply andb_false_iff; left; apply Z.leb_gt; lia.
Qed.

(** A string of the ASCII range is its own encoding. *)
Lemma Buffer_from_ascii (s : JsString) :
  Forall (fun u => u < 0x80) s -> Buffer_from s = s.
Proof.
  induction 1 as [| u rest Hu _ IH]; [reflexivity |].
  destruct (not_surrogate_below_0x80 u Hu) as [Hhigh Hlow].
  cbn [Buffer_from]. rewrite Hhigh, Hlow, IH.
  unfold utf8_of_code_point.
  destruct (Z.ltb_spec u 0x80); [reflexivity | lia].
Qed.

Lemma Buffer_from_length_upper_aux (n : nat) :
  forall s : JsString, (length s <= n)%nat -> Forall is_code_unit s ->
    (length (Buffer_from s) <= 3 * length s)%nat.
Proof.
  induction n as [|n IH]; intros s Hn Hs.
  - destruct s; simpl in *; lia.
  - destruct s as [|u rest]; [simpl; lia |].
    cbn [length] in Hn. inversion Hs as [|? ? Hu Hrest]; subst.
    assert ((length (Buffer_from rest) <= 3 * length rest)%nat)
      by (apply IH; [lia | done]).
    pose proof (utf8_of_code_point_at_most_three 0xFFFD eq_refl) as Hrepl.
    cbn [Buffer_from].
    destruct (is_high_surrogate u).
    + destruct rest as [|l rest']; [cbn [length]; lia |].
      destruct (is_low_surrogate l).
      * rewrite length_app.
        pose proof (utf8_of_code_point_length
                      (0x10000 + Z.shiftl (u - 0xD800) 10 + (l - 0xDC00))).
        inversion Hrest; subst.
        assert ((length (Buffer_from rest') <= 3 * length rest')%nat)
          by (apply IH; [cbn [length] in Hn; lia | done]).
        cbn [length]. lia.
      * rewrite length_app. cbn [length] in *. lia.
    + destruct (is_low_surrogate u); rewrite length_app; cbn [length]; [lia |].
      assert ((length (utf8_of_code_point u) <= 3)%nat)
        by (apply utf8_of_code_point_at_most_three; unfold is_code_unit in Hu; lia).
      lia.
Qed.

Lemma Buffer_from_same_length_aux (n : nat) :
  forall s : JsString, (length s <= n)%nat ->
    length (Buffer_from s) = length s -> Forall (fun u => u < 0x80) s.
Proof.
  induction n as [|n IH]; intros s Hn Heq.
  - destruct s; [constructor | simpl in Hn; lia].
  - destruct s as [|u rest]; [constructor |].
    cbn [length] in Hn.
    pose proof (length_le_byte_length rest) as Hrest. unfold byte_length in Hrest.
    assert (Hrepl : length (utf8_of_code_point 0xFFFD) = 3%nat) by reflexivity.
    cbn [Buffer_from] in Heq.
    destruct (is_high_surrogate u) eqn:Hhigh.
    + exfalso. destruct rest as [|l rest']; [cbn [length] in Heq; lia |].
      destruct (is_low_surrogate l) eqn:Hlow.
      * rewrite length_app in Heq.
        rewrite (utf8_of_code_point_astral _
                   (proj1 (surrogate_pair_code_point u l Hhigh Hlow))) in Heq.
        pose proof (length_le_byte_length rest') as Hrest'.
        unfold byte_length in Hrest'. cbn [length] in Heq. lia.
      * rewrite length_app, Hrepl in Heq. cbn [length] in Heq, Hrest. lia.
    + destruct (is_low_surrogate u).
      * exfalso. rewrite length_app, Hrepl in Heq. cbn [length] in Heq. lia.
      * rewrite length_app in Heq. cbn [length] in Heq.
        pose proof (utf8_of_code_point_length u).
        constructor.
        -- apply utf8_of_code_point_one_byte. lia.
        -- apply IH; lia.
Qed.

Lemma byte_length_facts (s : JsString) :
  Z.of_nat (length s) <= byte_length s
  /\ (Forall is_code_unit s -> byte_length s <= 3 * Z.of_nat (length s))
  /\ (byte_length s = Z.of_nat (length s) <-> Forall (fun u => u < 0x80) s).
Proof.
  split; [apply length_le_byte_length |]. split.
  - intros Hs. unfold byte_length.
    pose proof (Buffer_from_length_upper_aux (length s) s (le_n _) Hs). lia.
  - unfold byte_length. split.
    + intros Heq. apply (Buffer_from_same_length_aux (length s)); lia.
    + intros Hs. by rewrite Buffer_from_ascii.
Qed.

(** *** What the primitive is handed *)

Lemma encryptPassword_calls
    (platform : Platform) (pbkdf : PbkdfCall -> Buffer) (env : Env)
    (password : JsValue) (options : option JsObject) (c : PbkdfCall) :
  In c (calls (encryptPassword platform pbkdf env password options)) ->
  exists pw s r L,
    password = VString pw
    /\ bound_numberOfRounds options = VNumber (NInt r) /\ 1 <= r
    /\ bound_outputLength options = VNumber (NInt L) /\ 1 <= L
    /\ bound_salt env options = VString s /\ minSaltLengh <= Z.of_nat (length s)
    /\ L <= MAX_LENGTH platform
    /\ c = derivation_call pw s r L
    /\ encryptPassword platform pbkdf env password options
       = MkRun [c] (Return (pbkdf c)).
Proof. rewrite encryptPassword_unfold. apply body_calls. Qed.

(** X5 (the call of the primitive is well formed).  Whatever the inputs, a
    call of [encryptPassword] calls the primitive at most once, and a call
    that is made is the whole of the derivation: its result is what is
    returned.  The three lengths handed over are the lengths of the three
    buffers, the key buffer is all zeros, the salt has at least 8 bytes --
    the floor checked in code units holds in bytes at the primitive --, and
    the key length and the number of rounds are at least 1. *)
Theorem pbkdf_call_well_formed
    (platform : Platform) (pbkdf : PbkdfCall -> Buffer) (env : Env) (password : JsValue)
    (options : option JsObject) (c : PbkdfCall) :
  In c (calls (encryptPassword platform pbkdf env password options)) ->
  encryptPassword platform pbkdf env password options = MkRun [c] (Return (pbkdf c))
  /\ passlen c = Z.of_nat (length (pass c))
  /\ saltlen c = Z.of_nat (length (salt c))
  /\ keylen c = Z.of_nat (length (key c))
  /\ key c = repeat 0 (length (key c))
  /\ minSaltLengh <= saltlen c
  /\ 1 <= keylen c
  /\ 1 <= rounds c.
Proof.
  intros (pw & s & r & L & _ & _ & ? & _ & ? & _ & ? & _ & -> & Hrun)%encryptPassword_calls.
  split; [exact Hrun |].
  unfold derivation_call. cbn [pass passlen salt saltlen key keylen rounds].
  split; [reflexivity |]. split; [reflexivity |].
  split; [by rewrite zeros_length by lia |].
  split; [unfold zeros; by rewrite repeat_length |].
  pose proof (length_le_byte_length s). lia.
Qed.

Lemma pbkdf_call_well_formed_witness :
  saltlen (derivation_call (lit "correct horse") (lit "batterystapler") 1 32)
  = Z.of_nat (length (salt (derivation_call (lit "correct horse")
                                             (lit "batterystapler") 1 32)))
  /\ key (derivation_call (lit "correct horse") (lit "batterystapler") 1 32)
     = repeat 0 (length (key (derivation_call (lit "correct horse")
                                              (lit "batterystapler") 1 32))).
Proof.
  destruct (pbkdf_call_well_formed node64 checksum_pbkdf ∅
              (VString (lit "correct horse"))
              (Some {[ "salt" := VString (lit "batterystapler") ]})
              (derivation_call (lit "correct horse") (lit "batterystapler") 1 32))
    as (_ & _ & Hsalt & _ & Hkey & _).
  - vm_compute. left. reflexivity.
  - split; [exact Hsalt | exact Hkey].
Defined.

(** X6 (the buffers hold bytes).  When the password is a string of 16-bit
    code units, and so is the salt of the call, every element of the three
    buffers handed to the primitive is a byte. *)
Theorem pbkdf_buffers_hold_bytes
    (platform : Platform) (pbkdf : PbkdfCall -> Buffer) (env : Env) (pw : JsString)
    (options : option JsObject) (c : PbkdfCall) :
  Forall is_code_unit pw ->
  Forall is_code_unit (str (bound_salt env options)) ->
  In c (calls (encryptPassword platform pbkdf env (VString pw) options)) ->
  Forall is_byte (pass c) /\ Forall is_byte (salt c) /\ Forall is_byte (key c).
Proof.
  intros Hpw Hsalt
    (pw' & s & r & L & [= <-] & _ & _ & _ & _ & Hs & _ & _ & -> & _)%encryptPassword_calls.
  rewrite Hs in Hsalt. cbn [str] in Hsalt.
  unfold derivation_call. cbn [pass salt key].
  split; [by apply Buffer_from_bytes |]. split; [by apply Buffer_from_bytes |].
  unfold zeros. apply List.Forall_forall. intros b Hb.
  apply repeat_spec in Hb as ->. unfold is_byte. lia.
Qed.

Lemma pbkdf_buffers_hold_bytes_witness :
  Forall is_byte (pass (derivation_call [0x70; 0xE9; 0x20AC] (lit "batterystapler") 1 32))
  /\ Forall is_byte (salt (derivation_call [0x70; 0xE9; 0x20AC] (lit "batterystapler") 1 32))
  /\ Forall is_byte (key (derivation_call [0x70; 0xE9; 0x20AC] (lit "batterystapler") 1 32)).
Proof.
  apply (pbkdf_buffers_hold_bytes node64 checksum_pbkdf ∅ [0x70; 0xE9; 0x20AC]
           (Some {[ "salt" := VString (lit "batterystapler") ]})).
  - repeat (constructor; [unfold is_code_unit; lia |]). constructor.
  - change (Forall is_code_unit (lit "batterystapler")).
    repeat (constructor;
            [unfold is_code_unit; vm_compute; split; [discriminate | reflexivity] |]).
    constructor.
  - vm_compute. left. reflexivity.
Defined.

(** X7 (the password length is counted in bytes).  The length handed to the
    primitive with the password is the length of its UTF-8 encoding, not
    [password.length]: the password buffer is the encoding of the password
    and [passlen] is its byte length.  That length is never less than
    [password.length], it is at most three times as much for a string of
    16-bit code units, and the two are equal exactly when every code unit of
    the password is below U+0080; the password buffer is then the string
    itself. *)
Theorem passlen_counts_bytes
    (platform : Platform) (pbkdf : PbkdfCall -> Buffer) (env : Env) (pw : JsString)
    (options : option JsObject) (c : PbkdfCall) :
  In c (calls (encryptPassword platform pbkdf env (VString pw) options)) ->
  pass c = Buffer_from pw
  /\ passlen c = byte_length pw
  /\ passlen c = Z.of_nat (length (pass c))
  /\ Z.of_nat (length pw) <= passlen c
  /\ (Forall is_code_unit pw -> passlen c <= 3 * Z.of_nat (length pw))
  /\ (passlen c = Z.of_nat (length pw) <-> Forall (fun u => u < 0x80) pw)
  /\ (Forall (fun u => u < 0x80) pw -> pass c = pw).
Proof.
  intros (pw' & s & r & L & [= <-] & _ & _ & _ & _ & _ & _ & _ & -> & _)%encryptPassword_calls.
  unfold derivation_call. cbn [pass passlen].
  split; [reflexivity |].
  split; [reflexivity |].
  split; [reflexivity |].
  split; [apply byte_length_facts |].
  split; [apply byte_length_facts |].
  split; [apply byte_length_facts |].
  apply Buffer_from_ascii.
Qed.

Lemma passlen_counts_bytes_witness :
  passlen (derivation_call [0x70; 0xE9; 0x20AC] (lit "batterystapler") 1 32)
  = byte_length [0x70; 0xE9; 0x20AC]
  /\ passlen (derivation_call [0x70; 0xE9; 0x20AC] (lit "batterystapler") 1 32) = 6.
Proof.
  destruct (passlen_counts_bytes node64 checksum_pbkdf ∅ [0x70; 0xE9; 0x20AC]
              (Some {[ "salt" := VString (lit "batterystapler") ]})
              (derivation_call [0x70; 0xE9; 0x20AC] (lit "batterystapler") 1 32))
    as (_ & Hbytes & _).
  - vm_compute. left. reflexivity.
  - split; [exact Hbytes | vm_compute; reflexivity].
Defined.

(** *** What a call reads, and what a successful load promises *)

(** X9 (nothing else is read).  Of the environment, the module reads the
    variable SALT and no other: setting or deleting another variable changes
    neither the load of the module nor any call.  Of the options object, a
    call reads the properties [numberOfRounds], [outputLength] and [salt]
    and no other: a property of another name changes nothing. *)
Theorem reads_only_its_inputs
    (platform : Platform) (pbkdf : PbkdfCall -> Buffer) (env : Env) (password : JsValue) :
  (forall (name : string) (value : JsString) (options : option JsObject),
      name <> "SALT" ->
      encryptPassword platform pbkdf (<[ name := value ]> env) password options
      = encryptPassword platform pbkdf env password options
      /\ encryptPassword platform pbkdf (delete name env) password options
         = encryptPassword platform pbkdf env password options
      /\ load_module (<[ name := value ]> env) = load_module env
      /\ load_module (delete name env) = load_module env)
  /\ (forall (name : string) (v : JsValue) (o : JsObject),
        name <> "numberOfRounds" -> name <> "outputLength" -> name <> "salt" ->
        encryptPassword platform pbkdf env password (Some (<[ name := v ]> o))
        = encryptPassword platform pbkdf env password (Some o)
        /\ encryptPassword platform pbkdf env password (Some (delete name o))
           = encryptPassword platform pbkdf env password (Some o)).
Proof.
  split.
  - intros name value options Hname.
    assert (Hset : env_get (<[ name := value ]> env) "SALT" = env_get env "SALT")
      by (unfold env_get; by rewrite lookup_insert_ne).
    assert (Hdel : env_get (delete name env) "SALT" = env_get env "SALT")
      by (unfold env_get; by rewrite lookup_delete_ne).
    unfold load_module. rewrite !encryptPassword_unfold.
    unfold bound_salt. by rewrite Hset, Hdel.
  - intros name v o H1 H2 H3. rewrite !encryptPassword_unfold.
    unfold bound_numberOfRounds, bound_outputLength, bound_salt.
    cbn [from_option id].
    by rewrite !get_insert_ne, !get_delete_ne.
Qed.

Lemma reads_only_its_inputs_witness :
  encryptPassword node64 checksum_pbkdf
    (<[ "PEPPER" := lit "unrelated" ]> {[ "SALT" := lit "batterystapler" ]})
    (VString (lit "correct horse")) None
  = encryptPassword node64 checksum_pbkdf {[ "SALT" := lit "batterystapler" ]}
      (VString (lit "correct horse")) None
  /\ encryptPassword node64 checksum_pbkdf {[ "SALT" := lit "batterystapler" ]}
       (VString (lit "correct horse"))
       (Some (<[ "rounds" := VNumber (NInt 0) ]> ∅))
     = encryptPassword node64 checksum_pbkdf {[ "SALT" := lit "batterystapler" ]}
         (VString (lit "correct horse")) (Some ∅).
Proof.
  destruct (reads_only_its_inputs node64 checksum_pbkdf
              {[ "SALT" := lit "batterystapler" ]}
              (VString (lit "correct horse")))
    as [Henv Hoptions].
  split.
  - apply (Henv "PEPPER" (lit "unrelated") None). discriminate.
  - apply (Hoptions "rounds" (VNumber (NInt 0)) ∅); discriminate.
Defined.

(** X10 (what a successful load promises).  Loading checks [env.SALT] only
    if it is set, so a module that has loaded does not yet have a salt.
    In the environment the module has loaded in, a call without the [salt]
    option whose other inputs are valid, the output length being within the
    range of [Buffer.alloc], returns exactly when SALT is set; when SALT is
    not set it throws the salt error of the type check, with no call of the
    primitive. *)
Theorem defaulted_call_after_load
    (platform : Platform) (pbkdf : PbkdfCall -> Buffer) (env : Env) (pw : JsString)
    (options : option JsObject) (L : Z) :
  load_module env = Return tt ->
  get (default ∅ options) "salt" = VUndefined ->
  positive_integer (bound_numberOfRounds options) ->
  bound_outputLength options = VNumber (NInt L) ->
  1 <= L <= MAX_LENGTH platform ->
  ((exists buf : Buffer,
       outcome (encryptPassword platform pbkdf env (VString pw) options) = Return buf)
   <-> is_Some (env !! "SALT"))
  /\ (env !! "SALT" = None ->
      encryptPassword platform pbkdf env (VString pw) options
      = MkRun [] (Throw (TypeError msg_salt_string))).
Proof.
  intros Hload Hg Hr HL HL1.
  rewrite encryptPassword_unfold, (bound_salt_default env options Hg), HL.
  unfold load_module in Hload. unfold env_get in *.
  destruct (env !! "SALT") as [s |] eqn:Henv.
  - apply validateSaltVariable_accepts in Hload; [| done].
    split; [| discriminate].
    split; [by eexists |]. intros _.
    apply body_returns_iff. split; [by eexists |]. split; [done |].
    split; [by exists L | done].
  - assert (Hthrow : encryptPassword_body platform pbkdf (VString pw)
                       (bound_numberOfRounds options)
                       (VNumber (NInt L)) VUndefined
                     = MkRun [] (Throw (TypeError msg_salt_string))).
    { apply body_salt_not_string; [done | exists L; split; [done | lia] | done]. }
    split; [| done]. rewrite Hthrow. split.
    + intros [buf Hbuf]. discriminate Hbuf.
    + intros [s Hs]. discriminate Hs.
Qed.

Lemma defaulted_call_after_load_witness :
  (load_module ∅ = Return tt
   /\ encryptPassword node64 checksum_pbkdf ∅ (VString (lit "correct horse")) None
      = MkRun [] (Throw (TypeError msg_salt_string)))
  /\ (load_module {[ "SALT" := lit "batterystapler" ]} = Return tt
      /\ exists buf : Buffer,
          outcome (encryptPassword node64 checksum_pbkdf
                     {[ "SALT" := lit "batterystapler" ]}
                     (VString (lit "correct horse")) None)
          = Return buf).
Proof.
  split.
  - split; [vm_compute; reflexivity |].
    destruct (defaulted_call_after_load node64 checksum_pbkdf ∅
                (lit "correct horse") None 32)
      as [_ Hunset].
    + vm_compute. reflexivity.
    + vm_compute. reflexivity.
    + exists 1. split; [vm_compute; reflexivity | lia].
    + vm_compute. reflexivity.
    + split; [lia | vm_compute; discriminate].
    + apply Hunset. vm_compute. reflexivity.
  - split; [vm_compute; reflexivity |].
    destruct (defaulted_call_after_load node64 checksum_pbkdf
                {[ "SALT" := lit "batterystapler" ]}
                (lit "correct horse") None 32)
      as [Hset _].
    + vm_compute. reflexivity.
    + vm_compute. reflexivity.
    + exists 1. split; [vm_compute; reflexivity | lia].
    + vm_compute. reflexivity.
    + split; [lia | vm_compute; discriminate].
    + apply Hset. exists (lit "batterystapler"). vm_compute. reflexivity.
Defined.
